(** * The BRC2.0 base64 calldata decoder

    A shallow embedding of [src/components/Base64Decoder.tsx]: the hex
    formatter [bytesToHex] and the click handler [decodeBase64] of the
    [Base64Decoder] component, together with the JavaScript primitives they
    call ([String.prototype.trim], [Number.prototype.toString(16)],
    [padStart], [join], [toUpperCase], [atob]).

    The component keeps four pieces of React state ([input], [result],
    [error], [loading]).  The handler only reads [input] and only writes the
    other three through their setters, so it is modelled as a computation in
    a small monad that threads the component state, records every setter
    call and every call that leaves the component (to [atob] and to the two
    dynamically imported codecs) in a log, and completes normally, by
    [return], or by a thrown exception.

    The codecs [@bestinslot/nada] and [@bokuweb/zstd-wasm] are packages
    outside the repository: they are parameters.  [atob] is a primitive of
    the platform: the handler is a parameter in it as well, and [Html.atob]
    gives the decoder the HTML Standard prescribes for it. *)

From Stdlib Require Import List String Ascii NArith PeanoNat Lia Bool.
From Stdlib Require Import Strings.Byte HexadecimalString.
From Stdlib Require DecimalString.
Import ListNotations.

Local Open Scope list_scope.
Local Open Scope string_scope.

(** ** JavaScript strings and exceptions *)

(** A JavaScript string is a sequence of UTF-16 code units; [input] is one
    (whatever the user typed).  The strings the component builds itself
    (labels, messages, hex dumps) are ASCII and are kept as [string]. *)
Definition jsstring := list N.

(** The code units of an ASCII literal. *)
Definition str (s : string) : jsstring :=
  map N_of_ascii (list_ascii_of_string s).

(** The code points [String.prototype.trim] strips: ECMAScript's WhiteSpace
    and LineTerminator productions. *)
Definition isWhiteSpace (c : N) : bool :=
  ((9 <=? c) && (c <=? 13) || (c =? 32) || (c =? 160) || (c =? 5760)
   || (8192 <=? c) && (c <=? 8202) || (c =? 8232) || (c =? 8233)
   || (c =? 8239) || (c =? 8287) || (c =? 12288) || (c =? 65279))%N.

Fixpoint trimStart (s : jsstring) : jsstring :=
  match s with
  | [] => []
  | c :: s' => if isWhiteSpace c then trimStart s' else s
  end.

Definition trimEnd (s : jsstring) : jsstring := rev (trimStart (rev s)).

Definition trim (s : jsstring) : jsstring := trimEnd (trimStart s).

(** [!s] on a string: only the empty string is falsy. *)
Definition isFalsy (s : jsstring) : bool :=
  match s with [] => true | _ :: _ => false end.

(** What the handler looks at in a caught value: [err instanceof Error],
    [err.message] and the string a template literal makes of it. *)
Record exn : Type := mkExn
  { exn_is_Error : bool;
    exn_message : string;
    exn_string : string }.

(** ** Numbers and strings in [bytesToHex] *)

(** [n.toString(16)] for a non-negative integer: lower-case digits, no
    leading zero, ["0"] for zero. *)
Definition toString16 (n : N) : string :=
  NilZero.string_of_uint (N.to_hex_uint n).

(** [s.padStart(targetLength, fill)] for a one-character [fill]. *)
Definition padStart (targetLength : nat) (fill : ascii) (s : string) : string :=
  string_of_list_ascii (repeat fill (targetLength - String.length s)) ++ s.

Definition toUpperCaseChar (c : ascii) : ascii :=
  let n := nat_of_ascii c in
  if (97 <=? n)%nat && (n <=? 122)%nat then ascii_of_nat (n - 32) else c.

(** [s.toUpperCase()] on an ASCII string. *)
Fixpoint toUpperCase (s : string) : string :=
  match s with
  | EmptyString => EmptyString
  | String c s' => String (toUpperCaseChar c) (toUpperCase s')
  end.

(** [xs.join(sep)]. *)
Definition join (sep : string) (xs : list string) : string :=
  String.concat sep xs.

(** A [Uint8Array]. *)
Definition bytes := list byte.

(** Storing a number in a [Uint8Array] keeps it modulo 256. *)
Definition toUint8 (n : N) : byte :=
  match Byte.of_N (n mod 256) with
  | Some b => b
  | None => x00
  end.

(** [bytesToHex], lines 33-38. *)
Definition bytesToHex (bs : bytes) : string :=
  toUpperCase
    (join " " (map (fun byte => padStart 2 "0" (toString16 (Byte.to_N byte))) bs)).

(** ** The component state and the effects of the handler *)

(** The object given to [setResult], lines 24-29. *)
Record DecodeResult : Type := mkDecodeResult
  { compressionType : string;
    hexData : string;
    originalSize : nat;
    decodedSize : nat }.

(** The four [useState] cells, lines 23-31.  [error = ""] is "no error"
    (the alert is rendered under [error &&]) and [result = None] is
    [null]. *)
Record state : Type := mkState
  { input : jsstring;
    result : option DecodeResult;
    error : string;
    loading : bool }.

(** What the handler does that can be seen from outside, in order. *)
Inductive effect : Type :=
| SetLoading (b : bool)
| SetError (msg : string)
| SetResult (r : option DecodeResult)
| CallAtob (data : jsstring)
| ImportNada
| CallNadaDecode (data : bytes)
| ImportZstd
| CallZstdDecompress (data : bytes).

Record world : Type := mkWorld
  { ui : state;
    log : list effect }.

(** How a block of statements ends. *)
Inductive completion (A : Type) : Type :=
| Normal (a : A)
| Return
| Throw (e : exn).

Arguments Normal {A} a.
Arguments Return {A}.
Arguments Throw {A} e.

Definition M (A : Type) : Type := world -> completion A * world.

Definition ret {A} (a : A) : M A := fun w => (Normal a, w).

Definition bind {A B} (m : M A) (k : A -> M B) : M B :=
  fun w =>
    match m w with
    | (Normal a, w') => k a w'
    | (Return, w') => (Return, w')
    | (Throw e, w') => (Throw e, w')
    end.

Declare Scope js_scope.
Delimit Scope js_scope with js.

Notation "x <- m ;; k" := (bind m (fun x => k))
  (at level 100, m at next level, right associativity) : js_scope.
Notation "' p <- m ;; k" := (bind m (fun x => match x with p => k end))
  (at level 100, p pattern, m at next level, right associativity) : js_scope.
Notation "m ;; k" := (bind m (fun _ => k))
  (at level 100, right associativity) : js_scope.

Definition return_ {A} : M A := fun w => (Return, w).

Definition throw {A} (e : exn) : M A := fun w => (Throw e, w).

Definition emit (e : effect) : M unit :=
  fun w => (Normal tt, mkWorld (ui w) (log w ++ [e])%list).

Definition update (f : state -> state) : M unit :=
  fun w => (Normal tt, mkWorld (f (ui w)) (log w)).

Definition setLoading (b : bool) : M unit :=
  (emit (SetLoading b) ;;
   update (fun s => mkState (input s) (result s) (error s) b))%js.

Definition setError (msg : string) : M unit :=
  (emit (SetError msg) ;;
   update (fun s => mkState (input s) (result s) msg (loading s)))%js.

Definition setResult (r : option DecodeResult) : M unit :=
  (emit (SetResult r) ;;
   update (fun s => mkState (input s) r (error s) (loading s)))%js.

(** A call that leaves the component: logged, then its value or its
    exception. *)
Definition call {A} (e : effect) (outcome : exn + A) : M A :=
  (emit e ;;
   match outcome with
   | inl err => throw err
   | inr a => ret a
   end)%js.

(** [try body catch (e) handler]: a [return] in the body is not caught. *)
Definition try_catch {A} (body : M A) (handler : exn -> M A) : M A :=
  fun w =>
    match body w with
    | (Throw e, w') => handler e w'
    | other => other
    end.

(** [try body finally fin]: [fin] runs however the body ends, and the
    body's completion stands unless [fin] ends abruptly itself. *)
Definition try_finally {A} (body : M A) (fin : M unit) : M A :=
  fun w =>
    match body w with
    | (c, w') =>
        match fin w' with
        | (Normal _, w'') => (c, w'')
        | (Return, w'') => (Return, w'')
        | (Throw e, w'') => (Throw e, w'')
        end
    end.

(** A decompression function of an imported package. *)
Definition codec : Type := bytes -> exn + bytes.

(** ** The handler *)

Section Handler.

(** The platform's [atob]: a binary string, or the exception thrown. *)
Variable atob : jsstring -> exn + jsstring.

(** [await import('@bestinslot/nada')] and
    [await import('@bokuweb/zstd-wasm')], lines 11-19: the module's
    [decode] (resp. [decompress]), or the rejection of the import. *)
Variable loadNada : exn + codec.
Variable loadZstd : exn + codec.

(** The marker as the two template literals of lines 101 and 103 print
    it. *)
Definition markerHex (firstByte : byte) : string :=
  toUpperCase (padStart 2 "0" (toString16 (Byte.to_N firstByte))).

(** The [switch] of lines 69-105: the label and the bytes to show. *)
Definition dispatch (firstByte : byte) (dataWithoutMarker : bytes)
  : M (string * bytes) :=
  (match Byte.to_N firstByte with
   | 0%N =>
       ret ("Uncompressed (0x00)", dataWithoutMarker)
   | 1%N =>
       let compressionType := "NADA (0x01)" in
       try_catch
         (decode <- call ImportNada loadNada ;;
          decodedData <- call (CallNadaDecode dataWithoutMarker)
                              (decode dataWithoutMarker) ;;
          ret (compressionType, decodedData))
         (fun nadaError =>
            setError ("NADA decompression error: " ++ exn_string nadaError) ;;
            ret (compressionType, dataWithoutMarker))
   | 2%N =>
       let compressionType := "ZSTD (0x02)" in
       try_catch
         (decompress <- call ImportZstd loadZstd ;;
          decodedData <- call (CallZstdDecompress dataWithoutMarker)
                              (decompress dataWithoutMarker) ;;
          ret (compressionType, decodedData))
         (fun zstdError =>
            setError ("ZSTD decompression error: " ++ exn_string zstdError) ;;
            ret (compressionType, dataWithoutMarker))
   | _ =>
       let compressionType := "Unknown (0x" ++ markerHex firstByte ++ ")" in
       setError ("Unknown compression marker: 0x" ++ markerHex firstByte) ;;
       ret (compressionType, dataWithoutMarker)
   end)%js.

(** [decodeBase64], lines 40-119, for the [input] of the render the
    handler was created in. *)
Definition decodeBase64 (input : jsstring) : M unit :=
  (if isFalsy (trim input) then
     setError "Please enter a base64 string" ;;
     return_
   else
     setLoading true ;;
     setError "" ;;
     setResult None ;;
     try_finally
       (try_catch
          (binaryString <- call (CallAtob (trim input)) (atob (trim input)) ;;
           let bytes := map toUint8 binaryString in
           match bytes with
           | [] =>
               setError "Invalid base64 data" ;;
               return_
           | firstByte :: dataWithoutMarker =>
               '(compressionType, decodedData) <-
                  dispatch firstByte dataWithoutMarker ;;
               setResult
                 (Some (mkDecodeResult
                          compressionType
                          (bytesToHex decodedData)
                          (List.length (trim input))
                          (List.length decodedData)))
           end)
          (fun err =>
             setError ("Decoding error: "
                       ++ (if exn_is_Error err then exn_message err
                           else "Unknown error"))))
       (setLoading false))%js.

(** One click on "Decode" in state [s]: the state the component ends in
    and what was done on the way. *)
Definition click (s : state) : world :=
  snd (decodeBase64 (input s) (mkWorld s [])).

End Handler.

(** ** [atob] as the HTML Standard defines it *)

Module Html.

Local Open Scope N_scope.

(** TAB, LF, FF, CR and SPACE. *)
Definition isAsciiWhitespace (c : N) : bool :=
  (c =? 9) || (c =? 10) || (c =? 12) || (c =? 13) || (c =? 32).

(** The value of a code point of the base64 alphabet (A-Z, a-z, 0-9, +
    and /). *)
Definition sextet (c : N) : option N :=
  if (65 <=? c) && (c <=? 90) then Some (c - 65)
  else if (97 <=? c) && (c <=? 122) then Some (c - 71)
  else if (48 <=? c) && (c <=? 57) then Some (c + 4)
  else if c =? 43 then Some 62
  else if c =? 47 then Some 63
  else None.

(** The text without its last code point, if that is "=". *)
Definition dropFinalEquals (data : jsstring) : jsstring :=
  match rev data with
  | c :: r => if c =? 61 then rev r else data
  | [] => data
  end.

(** Step 2 of forgiving-base64 decode: when the length is a multiple of
    four, one or two final "=" are removed. *)
Definition stripPadding (data : jsstring) : jsstring :=
  if N.of_nat (List.length data) mod 4 =? 0
  then dropFinalEquals (dropFinalEquals data)
  else data.

(** Step 4: every remaining code point has to be in the alphabet. *)
Fixpoint sextets (data : jsstring) : option (list N) :=
  match data with
  | [] => Some []
  | c :: data' =>
      match sextet c, sextets data' with
      | Some v, Some vs => Some (v :: vs)
      | _, _ => None
      end
  end.

(** Steps 5-9: four sextets give three bytes; three left over give two
    bytes and two left over give one, the spare low bits dropped. *)
Fixpoint decodeSextets (vs : list N) : list N :=
  match vs with
  | a :: b :: c :: d :: rest =>
      let n := a * 262144 + b * 4096 + c * 64 + d in
      n / 65536 :: (n / 256) mod 256 :: n mod 256 :: decodeSextets rest
  | [a; b; c] =>
      let n := (a * 4096 + b * 64 + c) / 4 in
      [n / 256; n mod 256]
  | [a; b] => [(a * 64 + b) / 16]
  | _ => []
  end.

(** Steps 1 and 2: the text without its ASCII white space and without its
    padding. *)
Definition unpadded (data : jsstring) : jsstring :=
  stripPadding (filter (fun c => negb (isAsciiWhitespace c)) data).

(** Step 3 refuses a length of 1 modulo 4. *)
Definition forgivingBase64Decode (data : jsstring) : option jsstring :=
  let data := unpadded data in
  if N.of_nat (List.length data) mod 4 =? 1 then None
  else option_map decodeSextets (sextets data).

(** The "InvalidCharacterError" [DOMException] of a text that is not
    base64; a [DOMException] is an [Error].  The Standard fixes the name of
    the exception, not its message: the texts here are Chrome's. *)
Definition invalidCharacterError : exn :=
  mkExn true
    "Failed to execute 'atob' on 'Window': The string to be decoded is not correctly encoded."
    "InvalidCharacterError: Failed to execute 'atob' on 'Window': The string to be decoded is not correctly encoded.".

(** The same exception with the message Chrome gives a text that has a
    code unit above 0xFF; it is looked for before anything else. *)
Definition latin1RangeError : exn :=
  mkExn true
    "Failed to execute 'atob' on 'Window': The string to be decoded contains characters outside of the Latin1 range."
    "InvalidCharacterError: Failed to execute 'atob' on 'Window': The string to be decoded contains characters outside of the Latin1 range.".

(** [atob(data)]: the bytes as a binary string, one code unit each. *)
Definition atob (data : jsstring) : exn + jsstring :=
  if existsb (fun c => 255 <? c) data then inl latin1RangeError
  else
    match forgivingBase64Decode data with
    | Some binaryString => inr binaryString
    | None => inl invalidCharacterError
    end.

(** An [atob] of any engine: it returns what forgiving-base64 decode gives
    and throws, whatever the exception and its message, where that
    fails. *)
Definition conforms (atob : jsstring -> exn + jsstring) : Prop :=
  forall data : jsstring,
    match forgivingBase64Decode data with
    | Some binaryString => atob data = inr binaryString
    | None => exists e : exn, atob data = inl e
    end.

End Html.

(** A codec whose package cannot be loaded. *)
Definition unavailable : exn + codec :=
  inl (mkExn true "Failed to fetch dynamically imported module"
             "TypeError: Failed to fetch dynamically imported module").

(** ** Reading a hex dump back *)

Definition hexDigitValue (c : ascii) : option N :=
  let n := N_of_ascii c in
  (if (48 <=? n) && (n <=? 57) then Some (n - 48)
   else if (65 <=? n) && (n <=? 70) then Some (n - 55)
   else None)%N.

Definition hexPair (hi lo : ascii) : option byte :=
  match hexDigitValue hi, hexDigitValue lo with
  | Some h, Some l => Byte.of_N (16 * h + l)
  | _, _ => None
  end.

(** Modelled from the spec: [parseHex], the inverse the spec's round-trip
    property names; the repository has no parser.  It reads what section
    4.4 describes: nothing, or groups of exactly two uppercase hexadecimal
    digits with a single space between two groups and none before the first
    or after the last. *)
Fixpoint parseHex (s : string) : option bytes :=
  match s with
  | EmptyString => Some []
  | String hi (String lo EmptyString) =>
      option_map (fun b => [b]) (hexPair hi lo)
  | String hi (String lo (String sep rest)) =>
      if Ascii.eqb sep " " then
        match hexPair hi lo, parseHex rest with
        | Some b, Some (b' :: bs) => Some (b :: b' :: bs)
        | _, _ => None
        end
      else None
  | _ => None
  end.

(** ** Notions of the specification *)

(** An uppercase hexadecimal digit. *)
Definition upperHexDigit (d : N) : ascii :=
  match d with
  | 0 => "0" | 1 => "1" | 2 => "2" | 3 => "3" | 4 => "4" | 5 => "5"
  | 6 => "6" | 7 => "7" | 8 => "8" | 9 => "9" | 10 => "A" | 11 => "B"
  | 12 => "C" | 13 => "D" | 14 => "E" | _ => "F"
  end%N%char.

(** A byte as exactly two uppercase hexadecimal digits, zero-padded. *)
Definition twoUpperHexDigits (b : byte) : string :=
  String (upperHexDigit (Byte.to_N b / 16))
         (String (upperHexDigit (Byte.to_N b mod 16)) EmptyString).

(** The exception a codec ends with on [data], if any: the import is
    rejected, or the imported function throws. *)
Definition backendFailure (load : exn + codec) (data : bytes) : option exn :=
  match load with
  | inl e => Some e
  | inr decompress =>
      match decompress data with
      | inl e => Some e
      | inr _ => None
      end
  end.

(** The message of the outer [catch], line 115. *)
Definition decodingError (err : exn) : string :=
  "Decoding error: "
  ++ (if exn_is_Error err then exn_message err else "Unknown error").

(** The log of a click up to the call of [atob], lines 46-52. *)
Definition prologue (s : state) : list effect :=
  [SetLoading true; SetError ""; SetResult None; CallAtob (trim (input s))].

(** The result an earlier click on "/0hp" (bytes FF 48 69) left on the
    screen. *)
Definition stale : DecodeResult :=
  mkDecodeResult "Unknown (0xFF)" "48 69" 4 2.

(** The component with [text] typed in, still showing [stale] and the error
    of an earlier click. *)
Definition typed (text : string) : state :=
  mkState (str text) (Some stale) "Unknown compression marker: 0xFF" false.

(** ** The rendered component and its events *)

(** [String(n)] for a length: decimal digits. *)
Definition toStringDecimal (n : nat) : string :=
  DecimalString.NilZero.string_of_uint (Nat.to_uint n).

(** The "Decoded Result" card, lines 160-183: the badge, the line under the
    title and the read-only text area. *)
Record ResultCard : Type := mkResultCard
  { badge : string;
    cardDescription : string;
    hexTextarea : string }.

(** What the JSX of lines 121-207 shows that depends on the state. *)
Record view : Type := mkView
  { inputValue : jsstring;
    buttonDisabled : bool;
    buttonLabel : string;
    alert : option string;
    resultCard : option ResultCard }.

Definition render (s : state) : view :=
  mkView
    (input s)
    (loading s || isFalsy (trim (input s)))
    (if loading s then "Decoding..." else "Decode")
    (if String.eqb (error s) "" then None else Some (error s))
    (match result s with
     | None => None
     | Some result =>
         Some (mkResultCard
                 (compressionType result)
                 ("Original size: " ++ toStringDecimal (originalSize result)
                  ++ " bytes | Decoded size: "
                  ++ toStringDecimal (decodedSize result) ++ " bytes")
                 (hexData result))
     end).

(** [onChange] of the input field, line 139. *)
Definition onChange (value : jsstring) (s : state) : state :=
  mkState value (result s) (error s) (loading s).

(** The state of the first render, lines 23-31. *)
Definition initial : state := mkState [] None "" false.

(** The states the component can rest in: the user types, or clicks the
    button when it is not disabled; a click runs to its end, with whatever
    the imports give at that time. *)
Inductive reachable (atob : jsstring -> exn + jsstring) : state -> Prop :=
| reach_initial : reachable atob initial
| reach_change (value : jsstring) (s : state) :
    reachable atob s -> reachable atob (onChange value s)
| reach_click (loadNada loadZstd : exn + codec) (s : state) :
    reachable atob s ->
    buttonDisabled (render s) = false ->
    reachable atob (ui (click atob loadNada loadZstd s)).

(** What the [switch] may do for a marker and the bytes after it: import
    and call the codec of that marker on those bytes, and set the error of
    that marker's branch. *)
Definition dispatchEffect (firstByte : byte) (dataWithoutMarker : bytes)
           (e : effect) : Prop :=
  match e with
  | ImportNada => firstByte = x01
  | CallNadaDecode data => firstByte = x01 /\ data = dataWithoutMarker
  | ImportZstd => firstByte = x02
  | CallZstdDecompress data => firstByte = x02 /\ data = dataWithoutMarker
  | SetError msg =>
      (firstByte = x01
       /\ exists err, msg = "NADA decompression error: " ++ exn_string err)
      \/ (firstByte = x02
          /\ exists err, msg = "ZSTD decompression error: " ++ exn_string err)
      \/ (firstByte <> x00 /\ firstByte <> x01 /\ firstByte <> x02
          /\ msg = "Unknown compression marker: 0x"
                   ++ twoUpperHexDigits firstByte)
  | _ => False
  end.

(** A stand-in for a codec that answers: it gives its input back twice. *)
Definition doubling : exn + codec :=
  inr (fun data : bytes => inr (data ++ data)%list).

(** * Properties *)

(** ** The hex formatter *)

Lemma toUpperCase_app (a b : string) :
  toUpperCase (a ++ b) = toUpperCase a ++ toUpperCase b.
Proof.
  induction a as [|c a IH]; simpl; [reflexivity | now rewrite IH].
Qed.

Lemma byte_hex_upper (b : byte) :
  toUpperCase (padStart 2 "0" (toString16 (Byte.to_N b))) = twoUpperHexDigits b.
Proof. destruct b; reflexivity. Qed.

Lemma hexPair_twoUpperHexDigits (b : byte) :
  hexPair (upperHexDigit (Byte.to_N b / 16)) (upperHexDigit (Byte.to_N b mod 16))
  = Some b.
Proof. destruct b; reflexivity. Qed.

Lemma bytesToHex_nil : bytesToHex [] = "".
Proof. reflexivity. Qed.

Lemma bytesToHex_one (b : byte) : bytesToHex [b] = twoUpperHexDigits b.
Proof. unfold bytesToHex; simpl map; simpl join. apply byte_hex_upper. Qed.

Lemma bytesToHex_cons (b b' : byte) (bs : bytes) :
  bytesToHex (b :: b' :: bs)
  = twoUpperHexDigits b ++ " " ++ bytesToHex (b' :: bs).
Proof.
  unfold bytesToHex, join.
  change (map ?f (b :: b' :: bs)) with (f b :: map f (b' :: bs)).
  change (String.concat ?sep (?x :: map ?f (b' :: bs)))
    with (x ++ sep ++ String.concat sep (map f (b' :: bs))).
  rewrite !toUpperCase_app, byte_hex_upper. reflexivity.
Qed.

Lemma bytesToHex_length (bs : bytes) :
  String.length (bytesToHex bs) = 3 * List.length bs - 1.
Proof.
  destruct bs as [|b bs]; [reflexivity|].
  revert b; induction bs as [|b' bs IH]; intro b.
  - rewrite bytesToHex_one. reflexivity.
  - rewrite bytesToHex_cons.
    change (String.length (twoUpperHexDigits b ++ " " ++ ?r))
      with (S (S (S (String.length r)))).
    rewrite IH. simpl List.length. lia.
Qed.

Lemma parseHex_bytesToHex_cons (b : byte) (bs : bytes) :
  parseHex (bytesToHex (b :: bs)) = Some (b :: bs).
Proof.
  revert b; induction bs as [|b' bs IH]; intro b.
  - rewrite bytesToHex_one. unfold twoUpperHexDigits, parseHex.
    now rewrite hexPair_twoUpperHexDigits.
  - rewrite bytesToHex_cons.
    change (twoUpperHexDigits b ++ " " ++ ?r)
      with (String (upperHexDigit (Byte.to_N b / 16))
              (String (upperHexDigit (Byte.to_N b mod 16)) (String " " r))).
    cbn [parseHex]. fold parseHex.
    rewrite hexPair_twoUpperHexDigits, IH. reflexivity.
Qed.

Lemma parseHex_bytesToHex (bs : bytes) : parseHex (bytesToHex bs) = Some bs.
Proof.
  destruct bs; [reflexivity | apply parseHex_bytesToHex_cons].
Qed.

Lemma bytesToHex_inj (bs bs' : bytes) :
  bytesToHex bs = bytesToHex bs' -> bs = bs'.
Proof.
  intro H. apply (f_equal parseHex) in H.
  rewrite !parseHex_bytesToHex in H. congruence.
Qed.

Lemma upperHexDigit_value (b : byte) :
  hexDigitValue (upperHexDigit (Byte.to_N b / 16)) = Some (Byte.to_N b / 16)%N
  /\ hexDigitValue (upperHexDigit (Byte.to_N b mod 16)) = Some (Byte.to_N b mod 16)%N.
Proof. destruct b; split; reflexivity. Qed.

(** ** The handler, path by path *)

Ltac run_handler :=
  unfold try_finally, try_catch, call, setLoading, setError, setResult;
  unfold bind, emit, update, throw, ret, return_; simpl.

Lemma isFalsy_false (t : jsstring) : t <> [] -> isFalsy t = false.
Proof. destruct t; [congruence | reflexivity]. Qed.

Section Paths.

Variable atob : jsstring -> exn + jsstring.
Variable loadNada loadZstd : exn + codec.

Lemma click_blank (s : state) :
  trim (input s) = [] ->
  click atob loadNada loadZstd s
  = mkWorld (mkState (input s) (result s) "Please enter a base64 string"
                     (loading s))
            [SetError "Please enter a base64 string"].
Proof.
  intro H. unfold click, decodeBase64. rewrite H. reflexivity.
Qed.

Lemma click_atob_throws (s : state) (e : exn) :
  trim (input s) <> [] ->
  atob (trim (input s)) = inl e ->
  click atob loadNada loadZstd s
  = mkWorld (mkState (input s) None (decodingError e) false)
            (prologue s ++ [SetError (decodingError e); SetLoading false]).
Proof.
  intros Hne H. unfold click, decodeBase64.
  rewrite (isFalsy_false _ Hne). run_handler.
  rewrite H. reflexivity.
Qed.

Lemma click_no_bytes (s : state) (binaryString : jsstring) :
  trim (input s) <> [] ->
  atob (trim (input s)) = inr binaryString ->
  map toUint8 binaryString = [] ->
  click atob loadNada loadZstd s
  = mkWorld (mkState (input s) None "Invalid base64 data" false)
            (prologue s ++ [SetError "Invalid base64 data"; SetLoading false]).
Proof.
  intros Hne H Hb. unfold click, decodeBase64.
  rewrite (isFalsy_false _ Hne). run_handler.
  rewrite H, Hb. reflexivity.
Qed.

(** Once the marker is dispatched the handler always reaches
    [setResult]. *)
Lemma click_dispatched (s : state) (binaryString : jsstring)
      (firstByte : byte) (dataWithoutMarker : bytes)
      (compressionType : string) (decodedData : bytes) (w' : world) :
  trim (input s) <> [] ->
  atob (trim (input s)) = inr binaryString ->
  map toUint8 binaryString = firstByte :: dataWithoutMarker ->
  dispatch loadNada loadZstd firstByte dataWithoutMarker
           (mkWorld (mkState (input s) None "" true) (prologue s))
  = (Normal (compressionType, decodedData), w') ->
  let r := mkDecodeResult compressionType (bytesToHex decodedData)
                          (List.length (trim (input s)))
                          (List.length decodedData) in
  click atob loadNada loadZstd s
  = mkWorld (mkState (input (ui w')) (Some r) (error (ui w')) false)
            (log w' ++ [SetResult (Some r); SetLoading false]).
Proof.
  intros Hne H Hb Hd r. unfold click, decodeBase64.
  rewrite (isFalsy_false _ Hne). run_handler.
  rewrite H, Hb. unfold prologue in Hd. simpl in Hd. rewrite Hd.
  destruct w' as [u l]. simpl. now rewrite <- app_assoc.
Qed.

Lemma dispatch_uncompressed (dataWithoutMarker : bytes) (w : world) :
  dispatch loadNada loadZstd x00 dataWithoutMarker w
  = (Normal ("Uncompressed (0x00)", dataWithoutMarker), w).
Proof. reflexivity. Qed.

Lemma dispatch_nada_fails (dataWithoutMarker : bytes) (w : world) (e : exn) :
  backendFailure loadNada dataWithoutMarker = Some e ->
  exists calls,
    dispatch loadNada loadZstd x01 dataWithoutMarker w
    = (Normal ("NADA (0x01)", dataWithoutMarker),
       mkWorld (mkState (input (ui w)) (result (ui w))
                        ("NADA decompression error: " ++ exn_string e)
                        (loading (ui w)))
               (log w ++ calls
                  ++ [SetError ("NADA decompression error: " ++ exn_string e)]))
    /\ (calls = [ImportNada]
        \/ calls = [ImportNada; CallNadaDecode dataWithoutMarker]).
Proof.
  unfold backendFailure, dispatch. intro H.
  destruct loadNada as [e0|decode].
  - injection H as ->. exists [ImportNada]. split; [|now left].
    run_handler. rewrite <- app_assoc. reflexivity.
  - destruct (decode dataWithoutMarker) as [e0|d] eqn:Hdec; [|discriminate].
    injection H as ->.
    exists [ImportNada; CallNadaDecode dataWithoutMarker]. split; [|now right].
    run_handler. rewrite Hdec. simpl. rewrite <- !app_assoc. reflexivity.
Qed.

Lemma dispatch_zstd_fails (dataWithoutMarker : bytes) (w : world) (e : exn) :
  backendFailure loadZstd dataWithoutMarker = Some e ->
  exists calls,
    dispatch loadNada loadZstd x02 dataWithoutMarker w
    = (Normal ("ZSTD (0x02)", dataWithoutMarker),
       mkWorld (mkState (input (ui w)) (result (ui w))
                        ("ZSTD decompression error: " ++ exn_string e)
                        (loading (ui w)))
               (log w ++ calls
                  ++ [SetError ("ZSTD decompression error: " ++ exn_string e)]))
    /\ (calls = [ImportZstd]
        \/ calls = [ImportZstd; CallZstdDecompress dataWithoutMarker]).
Proof.
  unfold backendFailure, dispatch. intro H.
  destruct loadZstd as [e0|decompress].
  - injection H as ->. exists [ImportZstd]. split; [|now left].
    run_handler. rewrite <- app_assoc. reflexivity.
  - destruct (decompress dataWithoutMarker) as [e0|d] eqn:Hdec; [|discriminate].
    injection H as ->.
    exists [ImportZstd; CallZstdDecompress dataWithoutMarker].
    split; [|now right].
    run_handler. rewrite Hdec. simpl. rewrite <- !app_assoc. reflexivity.
Qed.

Lemma dispatch_unknown (firstByte : byte) (dataWithoutMarker : bytes)
      (w : world) :
  firstByte <> x00 -> firstByte <> x01 -> firstByte <> x02 ->
  let hex := twoUpperHexDigits firstByte in
  dispatch loadNada loadZstd firstByte dataWithoutMarker w
  = (Normal ("Unknown (0x" ++ hex ++ ")", dataWithoutMarker),
     mkWorld (mkState (input (ui w)) (result (ui w))
                      ("Unknown compression marker: 0x" ++ hex)
                      (loading (ui w)))
             (log w ++ [SetError ("Unknown compression marker: 0x" ++ hex)])).
Proof.
  intros H0 H1 H2 hex. subst hex. rewrite <- byte_hex_upper.
  destruct firstByte; try congruence; reflexivity.
Qed.

(** Whatever the marker and whatever the codecs do, the [switch] completes
    normally, touches nothing but [error] and sets no result. *)
Lemma dispatch_completes (firstByte : byte) (dataWithoutMarker : bytes)
      (w : world) :
  exists compressionType decodedData w' evs,
    dispatch loadNada loadZstd firstByte dataWithoutMarker w
    = (Normal (compressionType, decodedData), w')
    /\ input (ui w') = input (ui w)
    /\ result (ui w') = result (ui w)
    /\ loading (ui w') = loading (ui w)
    /\ log w' = (log w ++ evs)%list
    /\ (forall r, ~ In (SetResult r) evs).
Proof.
  assert (Hcase : forall (ct : string) (data : bytes) (msg : string)
                         (evs : list effect),
             (forall r, ~ In (SetResult r) (evs ++ [SetError msg])) ->
             exists compressionType decodedData w' evs',
               (Normal (ct, data),
                mkWorld (mkState (input (ui w)) (result (ui w)) msg
                                 (loading (ui w)))
                        (log w ++ evs ++ [SetError msg]))
               = (Normal (compressionType, decodedData), w')
               /\ input (ui w') = input (ui w)
               /\ result (ui w') = result (ui w)
               /\ loading (ui w') = loading (ui w)
               /\ log w' = (log w ++ evs')%list
               /\ (forall r, ~ In (SetResult r) evs')).
  { intros ct data msg evs Hevs.
    exists ct, data, (mkWorld (mkState (input (ui w)) (result (ui w)) msg
                                       (loading (ui w)))
                              (log w ++ evs ++ [SetError msg])),
           (evs ++ [SetError msg])%list.
    repeat split. exact Hevs. }
  destruct (Byte.to_N firstByte) as [|p] eqn:Hn.
  - apply (Byte.to_of_N_iff 0 firstByte) in Hn. injection Hn as <-.
    rewrite dispatch_uncompressed. exists "Uncompressed (0x00)",
      dataWithoutMarker, w, []. rewrite app_nil_r. repeat split. tauto.
  - destruct (Pos.eq_dec p 1) as [->|Hp1]; [|destruct (Pos.eq_dec p 2) as [->|Hp2]].
    + apply (Byte.to_of_N_iff 1 firstByte) in Hn. injection Hn as <-.
      destruct (backendFailure loadNada dataWithoutMarker) as [e|] eqn:Hf.
      * destruct (dispatch_nada_fails dataWithoutMarker w e Hf)
          as (calls & -> & Hcalls).
        apply Hcase. intros r He0.
        destruct Hcalls as [-> | ->]; simpl in He0;
          intuition discriminate.
      * unfold backendFailure in Hf. unfold dispatch.
        destruct loadNada as [e0|decode]; [discriminate|].
        destruct (decode dataWithoutMarker) as [e0|d] eqn:Hdec; [discriminate|].
        run_handler. rewrite Hdec. simpl.
        exists "NADA (0x01)", d,
          (mkWorld (ui w) (log w ++ [ImportNada;
                                     CallNadaDecode dataWithoutMarker])),
          [ImportNada; CallNadaDecode dataWithoutMarker].
        rewrite <- app_assoc. repeat split.
        simpl. intuition discriminate.
    + apply (Byte.to_of_N_iff 2 firstByte) in Hn. injection Hn as <-.
      destruct (backendFailure loadZstd dataWithoutMarker) as [e|] eqn:Hf.
      * destruct (dispatch_zstd_fails dataWithoutMarker w e Hf)
          as (calls & -> & Hcalls).
        apply Hcase. intros r He0.
        destruct Hcalls as [-> | ->]; simpl in He0;
          intuition discriminate.
      * unfold backendFailure in Hf. unfold dispatch.
        destruct loadZstd as [e0|decompress]; [discriminate|].
        destruct (decompress dataWithoutMarker) as [e0|d] eqn:Hdec;
          [discriminate|].
        run_handler. rewrite Hdec. simpl.
        exists "ZSTD (0x02)", d,
          (mkWorld (ui w) (log w ++ [ImportZstd;
                                     CallZstdDecompress dataWithoutMarker])),
          [ImportZstd; CallZstdDecompress dataWithoutMarker].
        rewrite <- app_assoc. repeat split.
        simpl. intuition discriminate.
    + rewrite dispatch_unknown.
      * apply (Hcase _ _ _ []). simpl. intuition discriminate.
      * intros ->. discriminate.
      * intros ->. simpl in Hn. congruence.
      * intros ->. simpl in Hn. congruence.
Qed.

(** Every object given to [setResult] is built from one byte sequence, and
    it is the result the component ends with. *)
Lemma click_result_produced (s : state) (r : DecodeResult) :
  In (SetResult (Some r)) (log (click atob loadNada loadZstd s)) ->
  result (ui (click atob loadNada loadZstd s)) = Some r
  /\ exists compressionType decodedData,
      r = mkDecodeResult compressionType (bytesToHex decodedData)
                         (List.length (trim (input s)))
                         (List.length decodedData).
Proof.
  destruct (trim (input s)) as [|c t] eqn:Ht.
  - rewrite (click_blank s Ht). simpl. intuition discriminate.
  - assert (Hne : trim (input s) <> []) by (rewrite Ht; discriminate).
    destruct (atob (trim (input s))) as [e|binaryString] eqn:Ha.
    + rewrite (click_atob_throws s e Hne Ha). simpl.
      intuition discriminate.
    + destruct (map toUint8 binaryString) as [|firstByte rest] eqn:Hb.
      * rewrite (click_no_bytes s binaryString Hne Ha Hb). simpl.
        intuition discriminate.
      * destruct (dispatch_completes firstByte rest
                    (mkWorld (mkState (input s) None "" true) (prologue s)))
          as (ct & data & w' & evs & Hd & _ & _ & _ & Hlog & Hevs).
        rewrite (click_dispatched s binaryString firstByte rest ct data w'
                   Hne Ha Hb Hd).
        simpl. intro H. apply in_app_or in H as [H|H].
        -- rewrite Hlog in H. apply in_app_or in H as [H|H].
           ++ simpl in H. intuition discriminate.
           ++ now apply Hevs in H.
        -- simpl in H. destruct H as [H|[H|[]]]; [|discriminate].
           injection H as <-. split; [reflexivity|].
           exists ct, data. rewrite Ht. reflexivity.
Qed.

End Paths.

(** ** Trimming *)

Lemma trimStart_blank (s : jsstring) :
  forallb isWhiteSpace s = true -> trimStart s = [].
Proof.
  induction s as [|c s IH]; simpl; [reflexivity|].
  intro H. apply andb_true_iff in H as [Hc Hs]. rewrite Hc. now apply IH.
Qed.

Lemma trimStart_nil (s : jsstring) :
  trimStart s = [] -> forallb isWhiteSpace s = true.
Proof.
  induction s as [|c s IH]; simpl; [reflexivity|].
  destruct (isWhiteSpace c); [exact IH | discriminate].
Qed.

Lemma trimStart_head (s : jsstring) (c : N) (r : jsstring) :
  trimStart s = c :: r -> isWhiteSpace c = false.
Proof.
  induction s as [|c0 s IH]; simpl; [discriminate|].
  destruct (isWhiteSpace c0) eqn:Hc0; [exact IH|].
  intro H. injection H as <- _. exact Hc0.
Qed.

Lemma trimStart_snoc (s : jsstring) (c : N) :
  isWhiteSpace c = false ->
  trimStart (s ++ [c])%list = (trimStart s ++ [c])%list.
Proof.
  intro Hc. induction s as [|c0 s IH]; simpl.
  - now rewrite Hc.
  - destruct (isWhiteSpace c0); [exact IH | reflexivity].
Qed.

Lemma trimEnd_cons (c : N) (r : jsstring) :
  isWhiteSpace c = false -> trimEnd (c :: r) = c :: trimEnd r.
Proof.
  intro Hc. unfold trimEnd. simpl rev.
  rewrite (trimStart_snoc _ _ Hc), rev_app_distr. reflexivity.
Qed.

(** A trimmed text is empty or starts with a character that is not white
    space. *)
Lemma trim_head (s : jsstring) (c : N) (t : jsstring) :
  trim s = c :: t -> isWhiteSpace c = false.
Proof.
  unfold trim. destruct (trimStart s) as [|c0 r] eqn:Hs; [discriminate|].
  pose proof (trimStart_head _ _ _ Hs) as Hc0.
  rewrite (trimEnd_cons _ _ Hc0). intro H. injection H as <- _. exact Hc0.
Qed.

(** The guard of line 41 fires exactly on the texts made of white space
    only. *)
Lemma trim_nil_iff (s : jsstring) :
  trim s = [] <-> forallb isWhiteSpace s = true.
Proof.
  split.
  - unfold trim. destruct (trimStart s) as [|c0 r] eqn:Hs.
    + intros _. now apply trimStart_nil.
    + rewrite (trimEnd_cons _ _ (trimStart_head _ _ _ Hs)). discriminate.
  - intro H. unfold trim. rewrite (trimStart_blank _ H). reflexivity.
Qed.

(** ** The properties of the specification *)

(** C3.  When the decoded bytes start with 0x00 the result shows exactly
    the bytes after the marker, under the label "Uncompressed (0x00)", no
    error is reported, and no codec is imported or called. *)
Theorem uncompressed_is_identity :
  forall (atob : jsstring -> exn + jsstring) (loadNada loadZstd : exn + codec)
         (s : state) (binaryString : jsstring) (payload : bytes),
    trim (input s) <> [] ->
    atob (trim (input s)) = inr binaryString ->
    map toUint8 binaryString = x00 :: payload ->
    let w := click atob loadNada loadZstd s in
    result (ui w)
    = Some (mkDecodeResult "Uncompressed (0x00)" (bytesToHex payload)
                           (List.length (trim (input s)))
                           (List.length payload))
    /\ error (ui w) = ""
    /\ loading (ui w) = false
    /\ log w
       = [SetLoading true; SetError ""; SetResult None;
          CallAtob (trim (input s)); SetResult (result (ui w));
          SetLoading false].
Proof.
  intros atob loadNada loadZstd s binaryString payload Hne Ha Hb w.
  subst w.
  rewrite (click_dispatched atob loadNada loadZstd s binaryString x00 payload
             _ _ _ Hne Ha Hb (dispatch_uncompressed _ _ _ _)).
  simpl. repeat split.
Qed.

Lemma uncompressed_is_identity_witness :
  let s := typed " AEhlbGxvCg== " in
  let w := click Html.atob unavailable unavailable s in
  trim (input s) = str "AEhlbGxvCg=="
  /\ Html.atob (trim (input s)) = inr [0; 72; 101; 108; 108; 111; 10]%N
  /\ result (ui w)
     = Some (mkDecodeResult "Uncompressed (0x00)" "48 65 6C 6C 6F 0A" 12 6)
  /\ error (ui w) = ""
  /\ loading (ui w) = false.
Proof.
  split; [reflexivity|]. split; [reflexivity|].
  assert (Hne : trim (input (typed " AEhlbGxvCg== ")) <> [])
    by (vm_compute; discriminate).
  destruct (uncompressed_is_identity Html.atob unavailable unavailable
              (typed " AEhlbGxvCg== ") [0; 72; 101; 108; 108; 111; 10]%N
              [x48; x65; x6c; x6c; x6f; x0a] Hne eq_refl eq_refl)
    as (Hr & He & Hl & _).
  split; [exact Hr|]. split; [exact He | exact Hl].
Defined.

(** C1.  When the decoded bytes start with 0x01 or 0x02 and the codec
    fails (its import is rejected or its function throws), the handler goes
    on: it reports "<scheme> decompression error: ..." and still sets a
    result, built from the bytes after the marker as they came, so the
    component ends with a result and an error together. *)
Theorem backend_failure_keeps_payload :
  forall (atob : jsstring -> exn + jsstring) (loadNada loadZstd : exn + codec)
         (s : state) (binaryString : jsstring) (marker : byte)
         (payload : bytes) (e : exn),
    trim (input s) <> [] ->
    atob (trim (input s)) = inr binaryString ->
    map toUint8 binaryString = marker :: payload ->
    marker = x01 /\ backendFailure loadNada payload = Some e
    \/ marker = x02 /\ backendFailure loadZstd payload = Some e ->
    let w := click atob loadNada loadZstd s in
    let scheme := if Byte.eqb marker x01 then "NADA" else "ZSTD" in
    result (ui w)
    = Some (mkDecodeResult
              (if Byte.eqb marker x01 then "NADA (0x01)" else "ZSTD (0x02)")
              (bytesToHex payload)
              (List.length (trim (input s)))
              (List.length payload))
    /\ error (ui w) = scheme ++ " decompression error: " ++ exn_string e
    /\ error (ui w) <> ""
    /\ loading (ui w) = false.
Proof.
  intros atob loadNada loadZstd s binaryString marker payload e Hne Ha Hb
         [[-> Hf] | [-> Hf]] w scheme; subst w scheme.
  - destruct (dispatch_nada_fails loadNada loadZstd payload
                (mkWorld (mkState (input s) None "" true) (prologue s)) e Hf)
      as (calls & Hd & _).
    rewrite (click_dispatched atob loadNada loadZstd s binaryString x01
               payload _ _ _ Hne Ha Hb Hd).
    simpl. repeat split. discriminate.
  - destruct (dispatch_zstd_fails loadNada loadZstd payload
                (mkWorld (mkState (input s) None "" true) (prologue s)) e Hf)
      as (calls & Hd & _).
    rewrite (click_dispatched atob loadNada loadZstd s binaryString x02
               payload _ _ _ Hne Ha Hb Hd).
    simpl. repeat split. discriminate.
Qed.

Lemma backend_failure_keeps_payload_witness :
  let s := typed "AkFC" in
  let w := click Html.atob unavailable unavailable s in
  Html.atob (trim (input s)) = inr [2; 65; 66]%N
  /\ result (ui w) = Some (mkDecodeResult "ZSTD (0x02)" "41 42" 4 2)
  /\ error (ui w)
     = "ZSTD decompression error: TypeError: Failed to fetch dynamically imported module"
  /\ loading (ui w) = false.
Proof.
  split; [reflexivity|].
  assert (Hne : trim (input (typed "AkFC")) <> [])
    by (vm_compute; discriminate).
  destruct (backend_failure_keeps_payload Html.atob unavailable unavailable
              (typed "AkFC") [2; 65; 66]%N x02 [x41; x42]
              (mkExn true "Failed to fetch dynamically imported module"
                     "TypeError: Failed to fetch dynamically imported module")
              Hne eq_refl eq_refl (or_intror (conj eq_refl eq_refl)))
    as (Hr & He & _ & Hl).
  split; [exact Hr|]. split; [exact He | exact Hl].
Defined.

(** C2.  When the decoded bytes start with a marker other than 0x00, 0x01
    and 0x02 the result shows exactly the bytes after the marker, an
    "Unknown compression marker" error is reported with it, and the label
    holds the marker as two uppercase hexadecimal digits. *)
Theorem unknown_marker_passes_through :
  forall (atob : jsstring -> exn + jsstring) (loadNada loadZstd : exn + codec)
         (s : state) (binaryString : jsstring) (marker : byte)
         (payload : bytes),
    trim (input s) <> [] ->
    atob (trim (input s)) = inr binaryString ->
    map toUint8 binaryString = marker :: payload ->
    marker <> x00 -> marker <> x01 -> marker <> x02 ->
    let w := click atob loadNada loadZstd s in
    result (ui w)
    = Some (mkDecodeResult
              ("Unknown (0x" ++ twoUpperHexDigits marker ++ ")")
              (bytesToHex payload)
              (List.length (trim (input s)))
              (List.length payload))
    /\ error (ui w)
       = "Unknown compression marker: 0x" ++ twoUpperHexDigits marker
    /\ hexPair (upperHexDigit (Byte.to_N marker / 16))
               (upperHexDigit (Byte.to_N marker mod 16)) = Some marker
    /\ loading (ui w) = false.
Proof.
  intros atob loadNada loadZstd s binaryString marker payload Hne Ha Hb
         H0 H1 H2 w; subst w.
  rewrite (click_dispatched atob loadNada loadZstd s binaryString marker
             payload _ _ _ Hne Ha Hb
             (dispatch_unknown loadNada loadZstd marker payload _ H0 H1 H2)).
  simpl. repeat split. apply hexPair_twoUpperHexDigits.
Qed.

Lemma unknown_marker_passes_through_witness :
  let s := typed "/w==" in
  let w := click Html.atob unavailable unavailable s in
  Html.atob (trim (input s)) = inr [255]%N
  /\ result (ui w) = Some (mkDecodeResult "Unknown (0xFF)" "" 4 0)
  /\ error (ui w) = "Unknown compression marker: 0xFF"
  /\ loading (ui w) = false.
Proof.
  split; [reflexivity|].
  assert (Hne : trim (input (typed "/w==")) <> [])
    by (vm_compute; discriminate).
  destruct (unknown_marker_passes_through Html.atob unavailable unavailable
              (typed "/w==") [255]%N xff [] Hne eq_refl eq_refl
              ltac:(discriminate) ltac:(discriminate) ltac:(discriminate))
    as (Hr & He & _ & Hl).
  split; [exact Hr|]. split; [exact He | exact Hl].
Defined.

(** C6.  [bytesToHex] writes each byte as exactly two uppercase, zero-padded
    hexadecimal digits (the high one first), puts a single space between
    two bytes and nothing before the first or after the last, and gives the
    empty string for no bytes; so the text has 3n - 1 characters for n > 0
    bytes, and reading it back gives the bytes it was made from. *)
Theorem bytesToHex_format_round_trip :
  forall (b b' : byte) (bs : bytes),
    bytesToHex [] = ""
    /\ bytesToHex [b] = twoUpperHexDigits b
    /\ bytesToHex (b :: b' :: bs)
       = twoUpperHexDigits b ++ " " ++ bytesToHex (b' :: bs)
    /\ hexDigitValue (upperHexDigit (Byte.to_N b / 16))
       = Some (Byte.to_N b / 16)%N
    /\ hexDigitValue (upperHexDigit (Byte.to_N b mod 16))
       = Some (Byte.to_N b mod 16)%N
    /\ String.length (bytesToHex bs) = 3 * List.length bs - 1
    /\ parseHex (bytesToHex bs) = Some bs.
Proof.
  intros b b' bs.
  split; [apply bytesToHex_nil|].
  split; [apply bytesToHex_one|].
  split; [apply bytesToHex_cons|].
  split; [apply upperHexDigit_value|].
  split; [apply upperHexDigit_value|].
  split; [apply bytesToHex_length | apply parseHex_bytesToHex].
Qed.

(** C7.  Every result the handler sets has [decodedSize] equal to the
    number of bytes its [hexData] was made from: [hexData] is the dump of
    some byte sequence, and [decodedSize] is the length of whichever byte
    sequence has that dump. *)
Theorem decodedSize_is_payload_length :
  forall (atob : jsstring -> exn + jsstring) (loadNada loadZstd : exn + codec)
         (s : state) (r : DecodeResult),
    In (SetResult (Some r)) (log (click atob loadNada loadZstd s)) ->
    (exists payload : bytes,
        hexData r = bytesToHex payload
        /\ decodedSize r = List.length payload)
    /\ (forall payload : bytes,
           hexData r = bytesToHex payload ->
           decodedSize r = List.length payload).
Proof.
  intros atob loadNada loadZstd s r H.
  destruct (click_result_produced atob loadNada loadZstd s r H)
    as (_ & ct & data & ->).
  simpl. split.
  - exists data. split; reflexivity.
  - intros payload Hp. apply bytesToHex_inj in Hp. now subst.
Qed.

Lemma decodedSize_is_payload_length_witness :
  let r := mkDecodeResult "ZSTD (0x02)" "41 42" 4 2 in
  In (SetResult (Some r))
     (log (click Html.atob unavailable unavailable (typed "AkFC")))
  /\ hexData r = bytesToHex [x41; x42]
  /\ decodedSize r = 2.
Proof.
  assert (H : In (SetResult (Some (mkDecodeResult "ZSTD (0x02)" "41 42" 4 2)))
                 (log (click Html.atob unavailable unavailable (typed "AkFC"))))
    by (vm_compute; tauto).
  split; [exact H|]. split; [reflexivity|].
  exact (proj2 (decodedSize_is_payload_length Html.atob unavailable
                  unavailable (typed "AkFC") _ H)
               [x41; x42] eq_refl).
Defined.

(** C8.  Every result the handler sets has [originalSize] equal to the
    length of the trimmed input text (the base64 text, in UTF-16 code
    units), whatever the number of decoded bytes. *)
Theorem originalSize_is_trimmed_length :
  forall (atob : jsstring -> exn + jsstring) (loadNada loadZstd : exn + codec)
         (s : state) (r : DecodeResult),
    In (SetResult (Some r)) (log (click atob loadNada loadZstd s)) ->
    originalSize r = List.length (trim (input s))
    /\ result (ui (click atob loadNada loadZstd s)) = Some r.
Proof.
  intros atob loadNada loadZstd s r H.
  destruct (click_result_produced atob loadNada loadZstd s r H)
    as (Hr & ct & data & ->).
  split; [reflexivity | exact Hr].
Qed.

Lemma originalSize_is_trimmed_length_witness :
  let s := typed " AEhlbGxvCg== " in
  let r := mkDecodeResult "Uncompressed (0x00)" "48 65 6C 6C 6F 0A" 12 6 in
  In (SetResult (Some r)) (log (click Html.atob unavailable unavailable s))
  /\ List.length (input s) = 14
  /\ originalSize r = List.length (trim (input s)).
Proof.
  assert (H : In (SetResult
                    (Some (mkDecodeResult "Uncompressed (0x00)"
                                          "48 65 6C 6C 6F 0A" 12 6)))
                 (log (click Html.atob unavailable unavailable
                             (typed " AEhlbGxvCg== "))))
    by (vm_compute; tauto).
  split; [exact H|]. split; [reflexivity|].
  exact (proj1 (originalSize_is_trimmed_length Html.atob unavailable
                  unavailable (typed " AEhlbGxvCg== ") _ H)).
Defined.

(** C9.  On an input that is empty or made of white space only, the
    handler sets the error "Please enter a base64 string" and does nothing
    else: no call of [atob], no codec, and [result] and [loading] stay as
    they were. *)
Theorem blank_input_is_rejected :
  forall (atob : jsstring -> exn + jsstring) (loadNada loadZstd : exn + codec)
         (s : state),
    forallb isWhiteSpace (input s) = true ->
    let w := click atob loadNada loadZstd s in
    error (ui w) = "Please enter a base64 string"
    /\ result (ui w) = result s
    /\ loading (ui w) = loading s
    /\ input (ui w) = input s
    /\ log w = [SetError "Please enter a base64 string"].
Proof.
  intros atob loadNada loadZstd s H w; subst w.
  apply trim_nil_iff in H.
  rewrite (click_blank atob loadNada loadZstd s H).
  repeat split.
Qed.

Lemma blank_input_is_rejected_witness :
  let s := mkState [32; 9; 160; 10]%N (Some stale) "" true in
  let w := click Html.atob unavailable unavailable s in
  forallb isWhiteSpace (input s) = true
  /\ error (ui w) = "Please enter a base64 string"
  /\ result (ui w) = Some stale
  /\ loading (ui w) = true.
Proof.
  split; [reflexivity|].
  destruct (blank_input_is_rejected Html.atob unavailable unavailable
              (mkState [32; 9; 160; 10]%N (Some stale) "" true) eq_refl)
    as (He & Hr & Hl & _).
  split; [exact He|]. split; [exact Hr | exact Hl].
Defined.

(** C10.  A click that passes the blank-input guard begins with
    [setLoading(true)], [setError('')] and [setResult(null)], and only then
    calls [atob]; when [atob] throws, or yields no byte, the component ends
    with the new error and [result = null], whatever result it showed
    before. *)
Theorem click_clears_before_processing :
  forall (atob : jsstring -> exn + jsstring) (loadNada loadZstd : exn + codec)
         (s : state),
    trim (input s) <> [] ->
    let w := click atob loadNada loadZstd s in
    (exists rest : list effect,
        log w
        = SetLoading true :: SetError "" :: SetResult None
          :: CallAtob (trim (input s)) :: rest)
    /\ (forall e : exn,
           atob (trim (input s)) = inl e ->
           result (ui w) = None /\ error (ui w) = decodingError e)
    /\ (forall binaryString : jsstring,
           atob (trim (input s)) = inr binaryString ->
           map toUint8 binaryString = [] ->
           result (ui w) = None /\ error (ui w) = "Invalid base64 data").
Proof.
  intros atob loadNada loadZstd s Hne w; subst w.
  split; [|split].
  - destruct (atob (trim (input s))) as [e|binaryString] eqn:Ha.
    + rewrite (click_atob_throws atob loadNada loadZstd s e Hne Ha).
      eexists; reflexivity.
    + destruct (map toUint8 binaryString) as [|firstByte rest] eqn:Hb.
      * rewrite (click_no_bytes atob loadNada loadZstd s binaryString
                   Hne Ha Hb).
        eexists; reflexivity.
      * destruct (dispatch_completes loadNada loadZstd firstByte rest
                    (mkWorld (mkState (input s) None "" true) (prologue s)))
          as (ct & data & w' & evs & Hd & _ & _ & _ & Hlog & _).
        rewrite (click_dispatched atob loadNada loadZstd s binaryString
                   firstByte rest ct data w' Hne Ha Hb Hd).
        simpl. rewrite Hlog. eexists; reflexivity.
  - intros e Ha.
    rewrite (click_atob_throws atob loadNada loadZstd s e Hne Ha).
    split; reflexivity.
  - intros binaryString Ha Hb.
    rewrite (click_no_bytes atob loadNada loadZstd s binaryString Hne Ha Hb).
    split; reflexivity.
Qed.

Lemma click_clears_before_processing_witness :
  let s := typed "A!" in
  let w := click Html.atob unavailable unavailable s in
  result s = Some stale
  /\ Html.atob (trim (input s)) = inl Html.invalidCharacterError
  /\ result (ui w) = None
  /\ error (ui w) = decodingError Html.invalidCharacterError.
Proof.
  split; [reflexivity|]. split; [reflexivity|].
  assert (Hne : trim (input (typed "A!")) <> [])
    by (vm_compute; discriminate).
  exact (proj1 (proj2 (click_clears_before_processing Html.atob unavailable
                         unavailable (typed "A!") Hne))
               Html.invalidCharacterError eq_refl).
Defined.

(** ** What the platform's [atob] accepts *)

Lemma isAsciiWhitespace_isWhiteSpace (c : N) :
  Html.isAsciiWhitespace c = true -> isWhiteSpace c = true.
Proof.
  unfold Html.isAsciiWhitespace. rewrite !orb_true_iff.
  intros [[[[H|H]|H]|H]|H]; apply N.eqb_eq in H; subst; reflexivity.
Qed.

Lemma sextets_reject (c : N) (data : jsstring) :
  In c data -> Html.sextet c = None -> Html.sextets data = None.
Proof.
  intros Hin Hc. induction data as [|c0 data IH]; [destruct Hin|].
  simpl. destruct Hin as [-> | Hin].
  - now rewrite Hc.
  - rewrite (IH Hin). now destruct (Html.sextet c0).
Qed.

Lemma sextets_length (data : jsstring) (vs : list N) :
  Html.sextets data = Some vs -> List.length vs = List.length data.
Proof.
  revert vs; induction data as [|c data IH]; simpl; intros vs H.
  - now injection H as <-.
  - destruct (Html.sextet c); [|discriminate].
    destruct (Html.sextets data) as [vs'|]; [|discriminate].
    injection H as <-. simpl. now rewrite (IH vs' eq_refl).
Qed.

Lemma decodeSextets_nil (vs : list N) :
  Html.decodeSextets vs = [] -> (List.length vs <= 1)%nat.
Proof.
  destruct vs as [|a [|b [|c [|d rest]]]]; simpl; intro H;
    solve [lia | discriminate].
Qed.

Lemma dropFinalEquals_keeps (c : N) (data : jsstring) :
  In c data -> c <> 61%N -> In c (Html.dropFinalEquals data).
Proof.
  intros Hin Hc. unfold Html.dropFinalEquals.
  destruct (rev data) as [|x r] eqn:Hr; [exact Hin|].
  destruct (N.eqb_spec x 61) as [->|Hx]; [|exact Hin].
  apply in_rev in Hin. rewrite Hr in Hin.
  destruct Hin as [H|H]; [congruence | now apply in_rev in H].
Qed.

Lemma dropFinalEquals_length (data : jsstring) :
  (List.length data - 1 <= List.length (Html.dropFinalEquals data))%nat.
Proof.
  unfold Html.dropFinalEquals.
  destruct (rev data) as [|x r] eqn:Hr; [lia|].
  destruct (x =? 61)%N; [|lia].
  rewrite <- (length_rev data), Hr, length_rev. simpl. lia.
Qed.

Lemma stripPadding_keeps (c : N) (data : jsstring) :
  In c data -> c <> 61%N -> In c (Html.stripPadding data).
Proof.
  intros Hin Hc. unfold Html.stripPadding.
  destruct (N.of_nat (List.length data) mod 4 =? 0)%N; [|exact Hin].
  apply dropFinalEquals_keeps; [apply dropFinalEquals_keeps|]; assumption.
Qed.

Lemma atob_returns (data binaryString : jsstring) :
  Html.atob data = inr binaryString ->
  Html.forgivingBase64Decode data = Some binaryString.
Proof.
  unfold Html.atob. destruct (existsb _ data); [discriminate|].
  destruct (Html.forgivingBase64Decode data); [|discriminate].
  intro H. now injection H as <-.
Qed.

(** No text that still has a code point after trimming decodes to the empty
    byte sequence. *)
Lemma atob_of_text_is_not_empty (text : jsstring) :
  trim text <> [] -> Html.atob (trim text) <> inr [].
Proof.
  intros Hne Ha. destruct (trim text) as [|c r] eqn:Ht; [congruence|].
  pose proof (trim_head _ _ _ Ht) as Hc.
  assert (Hc' : Html.isAsciiWhitespace c = false).
  { destruct (Html.isAsciiWhitespace c) eqn:H; [|reflexivity].
    apply isAsciiWhitespace_isWhiteSpace in H. congruence. }
  apply atob_returns in Ha.
  unfold Html.forgivingBase64Decode, Html.unpadded in Ha.
  simpl filter in Ha. rewrite Hc' in Ha. simpl negb in Ha. cbv iota in Ha.
  set (d := c :: filter (fun c0 => negb (Html.isAsciiWhitespace c0)) r) in Ha.
  assert (Hd : (1 <= List.length d)%nat) by (subst d; simpl; lia).
  destruct (N.eqb_spec (N.of_nat (List.length (Html.stripPadding d)) mod 4) 1)
    as [H1|H1]; [discriminate|].
  destruct (Html.sextets (Html.stripPadding d)) as [vs|] eqn:Hs;
    [|discriminate].
  simpl in Ha. injection Ha as Ha.
  apply decodeSextets_nil in Ha. rewrite (sextets_length _ _ Hs) in Ha.
  unfold Html.stripPadding in H1, Ha.
  destruct (N.eqb_spec (N.of_nat (List.length d) mod 4) 0) as [H0|H0].
  - pose proof (dropFinalEquals_length d).
    pose proof (dropFinalEquals_length (Html.dropFinalEquals d)).
    assert (4 <= List.length d)%nat.
    { destruct (List.length d) as [|[|[|[|n]]]]; try lia;
        vm_compute in H0; discriminate. }
    lia.
  - assert (List.length d = 1)%nat by lia.
    apply H1. replace (List.length d) with 1%nat. reflexivity.
Qed.

(** C5 does not hold as it stands: a space inside the text is a
    character outside the base64 alphabet, [trim] leaves it there, and
    [atob] skips it, so the click ends with a result and no error. *)
Lemma whitespace_inside_is_accepted :
  let s := typed "AEhl bGxv" in
  let w := click Html.atob unavailable unavailable s in
  (In 32%N (trim (input s)) /\ Html.sextet 32 = None /\ 32%N <> 61%N)
  /\ result (ui w)
     = Some (mkDecodeResult "Uncompressed (0x00)" "48 65 6C 6C 6F" 9 5)
  /\ error (ui w) = ""
  /\ ~ (result (ui w) = None
        /\ error (ui w) = decodingError Html.invalidCharacterError).
Proof.
  split; [|split; [|split]].
  - split; [|split]; [vm_compute; tauto | reflexivity | discriminate].
  - reflexivity.
  - reflexivity.
  - intros [H _]. vm_compute in H. discriminate.
Qed.

(** Padding left out is accepted as well: "AEg" stands for the bytes
    00 48, though "AEg=" is the padded text. *)
Lemma omitted_padding_is_accepted :
  let w := click Html.atob unavailable unavailable (typed "AEg") in
  result (ui w) = Some (mkDecodeResult "Uncompressed (0x00)" "48" 3 1)
  /\ error (ui w) = "".
Proof. split; reflexivity. Qed.

(** *** What forgiving-base64 decode refuses *)

Lemma forgiving_rejects (text : jsstring) :
  (exists c : N,
      In c text
      /\ Html.sextet c = None /\ c <> 61%N
      /\ Html.isAsciiWhitespace c = false)
  \/ In 61%N (Html.unpadded text)
  \/ (N.of_nat (List.length (Html.unpadded text)) mod 4 = 1)%N ->
  Html.forgivingBase64Decode text = None.
Proof.
  intro H. unfold Html.forgivingBase64Decode.
  destruct (N.of_nat (List.length (Html.unpadded text)) mod 4 =? 1)%N
    eqn:Hlen; [reflexivity|].
  replace (Html.sextets (Html.unpadded text)) with (@None (list N));
    [reflexivity|].
  symmetry. destruct H as [(c & Hin & Hc & H61 & Hws) | [H | H]].
  - apply (sextets_reject c); [|exact Hc].
    apply stripPadding_keeps; [|exact H61].
    apply filter_In. split; [exact Hin | now rewrite Hws].
  - now apply (sextets_reject 61%N).
  - apply N.eqb_neq in Hlen. contradiction.
Qed.

Lemma dropFinalEquals_incl (c : N) (data : jsstring) :
  In c (Html.dropFinalEquals data) -> In c data.
Proof.
  unfold Html.dropFinalEquals.
  destruct (rev data) as [|x r] eqn:Hr; [tauto|].
  destruct (x =? 61)%N; [|tauto].
  intro H. apply in_rev. rewrite Hr. right. now apply in_rev.
Qed.

Lemma unpadded_incl (c : N) (text : jsstring) :
  In c (Html.unpadded text) ->
  In c text /\ Html.isAsciiWhitespace c = false.
Proof.
  unfold Html.unpadded, Html.stripPadding. intro H.
  assert (Hf : In c (filter (fun c0 => negb (Html.isAsciiWhitespace c0)) text)).
  { destruct (N.of_nat _ mod 4 =? 0)%N; [|exact H].
    now do 2 apply dropFinalEquals_incl. }
  apply filter_In in Hf as [Hin Hws]. split; [exact Hin|].
  now destruct (Html.isAsciiWhitespace c).
Qed.

Lemma sextets_accept (data : jsstring) :
  (forall c, In c data -> Html.sextet c <> None) ->
  exists vs, Html.sextets data = Some vs.
Proof.
  induction data as [|c data IH]; intro H; [now exists []|].
  destruct IH as [vs Hvs]; [intros c0 Hc0; apply H; now right|].
  simpl. destruct (Html.sextet c) as [v|] eqn:Hc.
  - rewrite Hvs. now exists (v :: vs).
  - exfalso. apply (H c); [now left | exact Hc].
Qed.

(** Everything else is accepted. *)
Lemma forgiving_accepts (text : jsstring) :
  ~ ((exists c : N,
         In c text
         /\ Html.sextet c = None /\ c <> 61%N
         /\ Html.isAsciiWhitespace c = false)
     \/ In 61%N (Html.unpadded text)
     \/ (N.of_nat (List.length (Html.unpadded text)) mod 4 = 1)%N) ->
  exists binaryString, Html.forgivingBase64Decode text = Some binaryString.
Proof.
  intro H. unfold Html.forgivingBase64Decode.
  destruct (N.eqb_spec (N.of_nat (List.length (Html.unpadded text)) mod 4) 1)
    as [Hlen|Hlen]; [exfalso; apply H; now right; right|].
  destruct (sextets_accept (Html.unpadded text)) as [vs Hvs].
  - intros c Hc Hs. apply H.
    destruct (N.eq_dec c 61) as [->|H61]; [right; now left|].
    left. exists c. destruct (unpadded_incl c text Hc) as [Hin Hws].
    repeat split; assumption.
  - rewrite Hvs. now eexists.
Qed.

Lemma above_latin1_is_foreign (c : N) :
  (255 < c)%N ->
  Html.sextet c = None /\ c <> 61%N /\ Html.isAsciiWhitespace c = false.
Proof.
  intro H. split; [|split; [lia|]].
  - unfold Html.sextet.
    replace (c <=? 90)%N with false by (symmetry; apply N.leb_gt; lia).
    replace (c <=? 122)%N with false by (symmetry; apply N.leb_gt; lia).
    replace (c <=? 57)%N with false by (symmetry; apply N.leb_gt; lia).
    replace (c =? 43)%N with false by (symmetry; apply N.eqb_neq; lia).
    replace (c =? 47)%N with false by (symmetry; apply N.eqb_neq; lia).
    rewrite !andb_false_r. reflexivity.
  - unfold Html.isAsciiWhitespace.
    rewrite !orb_false_iff. repeat split; apply N.eqb_neq; lia.
Qed.

Lemma Html_atob_conforms : Html.conforms Html.atob.
Proof.
  intro data. unfold Html.atob.
  destruct (existsb (fun c => 255 <? c)%N data) eqn:Hex.
  - apply existsb_exists in Hex as (c & Hin & Hc). apply N.ltb_lt in Hc.
    rewrite forgiving_rejects; [now eexists|].
    left. exists c. split; [exact Hin | now apply above_latin1_is_foreign].
  - destruct (Html.forgivingBase64Decode data); [reflexivity | now eexists].
Qed.

(** Only white space decodes to no byte at all. *)
Lemma forgiving_empty (data : jsstring) :
  Html.forgivingBase64Decode data = Some [] ->
  forallb Html.isAsciiWhitespace data = true.
Proof.
  intro Ha.
  assert (Hf : filter (fun c => negb (Html.isAsciiWhitespace c)) data = []).
  { unfold Html.forgivingBase64Decode, Html.unpadded in Ha.
    set (d := filter (fun c => negb (Html.isAsciiWhitespace c)) data) in *.
    destruct (N.eqb_spec (N.of_nat (List.length (Html.stripPadding d)) mod 4) 1)
      as [H1|H1]; [discriminate|].
    destruct (Html.sextets (Html.stripPadding d)) as [vs|] eqn:Hs;
      [|discriminate].
    simpl in Ha. injection Ha as Ha.
    apply decodeSextets_nil in Ha. rewrite (sextets_length _ _ Hs) in Ha.
    unfold Html.stripPadding in H1, Ha.
    destruct (N.eqb_spec (N.of_nat (List.length d) mod 4) 0) as [H0|H0].
    - pose proof (dropFinalEquals_length d).
      pose proof (dropFinalEquals_length (Html.dropFinalEquals d)).
      destruct d as [|c0 [|c1 [|c2 [|c3 d]]]]; [reflexivity|..];
        try (vm_compute in H0; discriminate).
      simpl List.length in *. lia.
    - destruct d as [|c0 [|c1 d]]; [reflexivity| |simpl in Ha; lia].
      exfalso. apply H1. reflexivity. }
  apply forallb_forall. intros c Hin.
  destruct (Html.isAsciiWhitespace c) eqn:Hws; [reflexivity|].
  assert (Hc : In c (filter (fun c => negb (Html.isAsciiWhitespace c)) data))
    by (apply filter_In; split; [exact Hin | now rewrite Hws]).
  rewrite Hf in Hc. destruct Hc.
Qed.

(** C5, amended.  Whatever the engine, [atob] follows forgiving-base64
    decode.  It refuses a text which, trimmed, has a character that is
    neither in the base64 alphabet, nor "=", nor ASCII white space, or in
    which, its ASCII white space and its one or two final "=" (if its length
    is a multiple of four) removed, a "=" is left or the length is 1 modulo
    4.  The handler then reports "Decoding error: " followed by the message
    of the exception [atob] threw, and ends with [result = null]: after the
    call of [atob] it only sets this error and resets [loading].  Every
    other text that is not blank is accepted (white space inside it and
    padding left out included), and the click ends with a result. *)
Theorem invalid_base64_is_rejected :
  forall (atob : jsstring -> exn + jsstring) (loadNada loadZstd : exn + codec)
         (s : state),
    Html.conforms atob ->
    let text := trim (input s) in
    let refused :=
      (exists c : N,
          In c text
          /\ Html.sextet c = None /\ c <> 61%N
          /\ Html.isAsciiWhitespace c = false)
      \/ In 61%N (Html.unpadded text)
      \/ (N.of_nat (List.length (Html.unpadded text)) mod 4 = 1)%N in
    let w := click atob loadNada loadZstd s in
    (refused ->
     exists e : exn,
       atob text = inl e
       /\ result (ui w) = None
       /\ error (ui w) = decodingError e
       /\ loading (ui w) = false
       /\ log w
          = [SetLoading true; SetError ""; SetResult None; CallAtob text;
             SetError (decodingError e); SetLoading false])
    /\ (text <> [] -> ~ refused ->
        exists r : DecodeResult,
          result (ui w) = Some r /\ In (SetResult (Some r)) (log w)).
Proof.
  intros atob loadNada loadZstd s Hconf text refused w.
  subst text refused w. split.
  - intro H. pose proof (Hconf (trim (input s))) as Ha.
    rewrite (forgiving_rejects _ H) in Ha. destruct Ha as [e Ha].
    assert (Hne : trim (input s) <> []).
    { intro Ht. rewrite Ht in H.
      destruct H as [(c & [] & _) | [[] | H]]. vm_compute in H. discriminate. }
    exists e. rewrite (click_atob_throws atob loadNada loadZstd s e Hne Ha).
    split; [exact Ha|]. repeat split.
  - intros Hne H. pose proof (Hconf (trim (input s))) as Ha.
    destruct (forgiving_accepts _ H) as [binaryString Hb].
    rewrite Hb in Ha.
    destruct (map toUint8 binaryString) as [|firstByte rest] eqn:Hbytes.
    + exfalso. destruct binaryString; [|discriminate].
      apply forgiving_empty in Hb.
      destruct (trim (input s)) as [|c t] eqn:Ht; [congruence|].
      pose proof (trim_head _ _ _ Ht) as Hc.
      simpl in Hb. apply andb_true_iff in Hb as [Hb _].
      apply isAsciiWhitespace_isWhiteSpace in Hb. congruence.
    + destruct (dispatch_completes loadNada loadZstd firstByte rest
                  (mkWorld (mkState (input s) None "" true) (prologue s)))
        as (ct & data & w' & evs & Hd & _ & _ & _ & _ & _).
      rewrite (click_dispatched atob loadNada loadZstd s binaryString
                 firstByte rest ct data w' Hne Ha Hbytes Hd).
      simpl. eexists. split; [reflexivity|].
      apply in_or_app. right. now left.
Qed.

Lemma invalid_base64_is_rejected_witness :
  let s := typed "AEhl!GxvCg==" in
  let w := click Html.atob unavailable unavailable s in
  (In 33%N (trim (input s)) /\ Html.sextet 33 = None)
  /\ error (ui w)
     = "Decoding error: Failed to execute 'atob' on 'Window': The string to be decoded is not correctly encoded."
  /\ exists e : exn,
      Html.atob (trim (input s)) = inl e
      /\ result (ui w) = None
      /\ error (ui w) = decodingError e
      /\ loading (ui w) = false.
Proof.
  assert (Hin : In 33%N (trim (input (typed "AEhl!GxvCg=="))))
    by (vm_compute; tauto).
  split; [split; [exact Hin | reflexivity]|]. split; [reflexivity|].
  assert (Hbad : (exists c : N,
                     In c (trim (input (typed "AEhl!GxvCg==")))
                     /\ Html.sextet c = None /\ c <> 61%N
                     /\ Html.isAsciiWhitespace c = false)
                 \/ In 61%N (Html.unpadded (trim (input (typed "AEhl!GxvCg=="))))
                 \/ (N.of_nat (List.length
                                 (Html.unpadded
                                    (trim (input (typed "AEhl!GxvCg==")))))
                     mod 4 = 1)%N).
  { left. exists 33%N. split; [exact Hin|]. split; [reflexivity|].
    split; [discriminate | reflexivity]. }
  destruct (proj1 (invalid_base64_is_rejected Html.atob unavailable
                     unavailable (typed "AEhl!GxvCg==") Html_atob_conforms)
                  Hbad)
    as (e & Ha & Hr & He & Hl & _).
  exists e. split; [exact Ha|]. split; [exact Hr|].
  split; [exact He | exact Hl].
Defined.

(** In Chrome the message is another one when the text has a character
    above U+00FF, here the euro sign. *)
Lemma message_outside_latin1 :
  let s := mkState (str "AEhl" ++ [8364%N] ++ str "Gxv")%list None "" false in
  let w := click Html.atob unavailable unavailable s in
  result (ui w) = None
  /\ error (ui w)
     = "Decoding error: Failed to execute 'atob' on 'Window': The string to be decoded contains characters outside of the Latin1 range.".
Proof. split; reflexivity. Qed.

(** * The rest of the component *)

(** ** The messages of the handler *)

Lemma dispatchEffect_error (firstByte : byte) (dataWithoutMarker : bytes)
      (msg : string) :
  dispatchEffect firstByte dataWithoutMarker (SetError msg) ->
  msg <> "" /\ msg <> "Please enter a base64 string"
  /\ msg <> "Invalid base64 data".
Proof.
  simpl. intros [(_ & e & ->) | [(_ & e & ->) | (_ & _ & _ & ->)]];
    repeat split; discriminate.
Qed.

Lemma decodingError_not (e : exn) :
  decodingError e <> "" /\ decodingError e <> "Please enter a base64 string"
  /\ decodingError e <> "Invalid base64 data".
Proof. unfold decodingError. repeat split; discriminate. Qed.

(** ** The [switch], whatever the state it runs in *)

Section Outcome.

Variable atob : jsstring -> exn + jsstring.
Variable loadNada loadZstd : exn + codec.

(** The label, the bytes, the error the [switch] sets (if any) and what it
    does are the same in every state; it never touches [input], [result]
    and [loading]. *)
Lemma dispatch_uniform (firstByte : byte) (dataWithoutMarker : bytes) :
  exists (compressionType : string) (decodedData : bytes)
         (err : option string) (evs : list effect),
    (forall w : world,
        dispatch loadNada loadZstd firstByte dataWithoutMarker w
        = (Normal (compressionType, decodedData),
           mkWorld (mkState (input (ui w)) (result (ui w))
                            (match err with
                             | Some msg => msg
                             | None => error (ui w)
                             end)
                            (loading (ui w)))
                   (log w ++ evs)))
    /\ Forall (dispatchEffect firstByte dataWithoutMarker) evs
    /\ (forall msg,
           err = Some msg ->
           dispatchEffect firstByte dataWithoutMarker (SetError msg))
    /\ (decodedData = dataWithoutMarker
        \/ err = None
           /\ (firstByte = x01
               /\ (exists decode, loadNada = inr decode
                                  /\ decode dataWithoutMarker = inr decodedData)
               \/ firstByte = x02
                  /\ (exists decompress,
                         loadZstd = inr decompress
                         /\ decompress dataWithoutMarker = inr decodedData))).
Proof.
  destruct (Byte.to_N firstByte) as [|p] eqn:Hn.
  - apply (Byte.to_of_N_iff 0 firstByte) in Hn. injection Hn as <-.
    exists "Uncompressed (0x00)", dataWithoutMarker, None, [].
    split; [|split; [constructor | split; [discriminate | now left]]].
    intros [[i r e l] lg]. rewrite dispatch_uncompressed. simpl.
    now rewrite app_nil_r.
  - destruct (Pos.eq_dec p 1) as [->|Hp1];
      [|destruct (Pos.eq_dec p 2) as [->|Hp2]].
    + apply (Byte.to_of_N_iff 1 firstByte) in Hn. injection Hn as <-.
      destruct (backendFailure loadNada dataWithoutMarker) as [e|] eqn:Hf.
      * assert (Hcalls : exists calls,
                   (calls = [ImportNada]
                    \/ calls = [ImportNada; CallNadaDecode dataWithoutMarker])
                   /\ forall w,
                       dispatch loadNada loadZstd x01 dataWithoutMarker w
                       = (Normal ("NADA (0x01)", dataWithoutMarker),
                          mkWorld
                            (mkState (input (ui w)) (result (ui w))
                               ("NADA decompression error: " ++ exn_string e)
                               (loading (ui w)))
                            (log w ++ calls
                               ++ [SetError ("NADA decompression error: "
                                             ++ exn_string e)]))).
        { unfold backendFailure in Hf. unfold dispatch.
          destruct loadNada as [e0|decode].
          - injection Hf as ->. exists [ImportNada].
            split; [now left|]. intro w.
            run_handler. rewrite <- app_assoc. reflexivity.
          - destruct (decode dataWithoutMarker) as [e0|d] eqn:Hdec;
              [|discriminate].
            injection Hf as ->.
            exists [ImportNada; CallNadaDecode dataWithoutMarker].
            split; [now right|]. intro w.
            run_handler. rewrite Hdec. simpl. rewrite <- !app_assoc.
            reflexivity. }
        destruct Hcalls as (calls & Hshape & Heq).
        exists "NADA (0x01)", dataWithoutMarker,
          (Some ("NADA decompression error: " ++ exn_string e)),
          (calls ++ [SetError ("NADA decompression error: " ++ exn_string e)])%list.
        split; [exact Heq|]. split; [|split; [|now left]].
        -- apply Forall_app. split.
           ++ destruct Hshape as [-> | ->]; repeat constructor.
           ++ constructor; [|constructor]. simpl. left. split; [reflexivity|].
              now exists e.
        -- intros msg H. injection H as <-. simpl. left.
           split; [reflexivity|]. now exists e.
      * unfold backendFailure in Hf.
        destruct loadNada as [e0|decode] eqn:Hload; [discriminate|].
        destruct (decode dataWithoutMarker) as [e0|d] eqn:Hdec; [discriminate|].
        exists "NADA (0x01)", d, None,
          [ImportNada; CallNadaDecode dataWithoutMarker].
        split; [|split; [repeat constructor | split; [discriminate|]]].
        -- intros [[i r e l] lg]. unfold dispatch. run_handler.
           rewrite Hdec. simpl. rewrite <- app_assoc. reflexivity.
        -- right. split; [reflexivity|]. left. split; [reflexivity|].
           now exists decode.
    + apply (Byte.to_of_N_iff 2 firstByte) in Hn. injection Hn as <-.
      destruct (backendFailure loadZstd dataWithoutMarker) as [e|] eqn:Hf.
      * assert (Hcalls : exists calls,
                   (calls = [ImportZstd]
                    \/ calls = [ImportZstd;
                                CallZstdDecompress dataWithoutMarker])
                   /\ forall w,
                       dispatch loadNada loadZstd x02 dataWithoutMarker w
                       = (Normal ("ZSTD (0x02)", dataWithoutMarker),
                          mkWorld
                            (mkState (input (ui w)) (result (ui w))
                               ("ZSTD decompression error: " ++ exn_string e)
                               (loading (ui w)))
                            (log w ++ calls
                               ++ [SetError ("ZSTD decompression error: "
                                             ++ exn_string e)]))).
        { unfold backendFailure in Hf. unfold dispatch.
          destruct loadZstd as [e0|decompress].
          - injection Hf as ->. exists [ImportZstd].
            split; [now left|]. intro w.
            run_handler. rewrite <- app_assoc. reflexivity.
          - destruct (decompress dataWithoutMarker) as [e0|d] eqn:Hdec;
              [|discriminate].
            injection Hf as ->.
            exists [ImportZstd; CallZstdDecompress dataWithoutMarker].
            split; [now right|]. intro w.
            run_handler. rewrite Hdec. simpl. rewrite <- !app_assoc.
            reflexivity. }
        destruct Hcalls as (calls & Hshape & Heq).
        exists "ZSTD (0x02)", dataWithoutMarker,
          (Some ("ZSTD decompression error: " ++ exn_string e)),
          (calls ++ [SetError ("ZSTD decompression error: " ++ exn_string e)])%list.
        split; [exact Heq|]. split; [|split; [|now left]].
        -- apply Forall_app. split.
           ++ destruct Hshape as [-> | ->]; repeat constructor.
           ++ constructor; [|constructor]. simpl. right. left.
              split; [reflexivity|]. now exists e.
        -- intros msg H. injection H as <-. simpl. right. left.
           split; [reflexivity|]. now exists e.
      * unfold backendFailure in Hf.
        destruct loadZstd as [e0|decompress] eqn:Hload; [discriminate|].
        destruct (decompress dataWithoutMarker) as [e0|d] eqn:Hdec;
          [discriminate|].
        exists "ZSTD (0x02)", d, None,
          [ImportZstd; CallZstdDecompress dataWithoutMarker].
        split; [|split; [repeat constructor | split; [discriminate|]]].
        -- intros [[i r e l] lg]. unfold dispatch. run_handler.
           rewrite Hdec. simpl. rewrite <- app_assoc. reflexivity.
        -- right. split; [reflexivity|]. right. split; [reflexivity|].
           now exists decompress.
    + assert (H0 : firstByte <> x00) by (intros ->; discriminate).
      assert (H1 : firstByte <> x01) by (intros ->; simpl in Hn; congruence).
      assert (H2 : firstByte <> x02) by (intros ->; simpl in Hn; congruence).
      exists ("Unknown (0x" ++ twoUpperHexDigits firstByte ++ ")"),
        dataWithoutMarker,
        (Some ("Unknown compression marker: 0x" ++ twoUpperHexDigits firstByte)),
        [SetError ("Unknown compression marker: 0x"
                   ++ twoUpperHexDigits firstByte)].
      split; [|split; [|split; [|now left]]].
      * intro w. now rewrite dispatch_unknown.
      * constructor; [|constructor]. simpl. right. right. tauto.
      * intros msg H. injection H as <-. simpl. right. right. tauto.
Qed.

End Outcome.

(** ** A click past the guard, as a function of the trimmed text *)

(** What a click leaves and does is fixed by the trimmed text: after the
    prologue it either reports that [atob] threw, or that there is no byte,
    or it runs the [switch] and sets a result; then it resets [loading]. *)
Lemma click_outcome
      (atob : jsstring -> exn + jsstring) (loadNada loadZstd : exn + codec)
      (t : jsstring) :
  t <> [] ->
  exists (res : option DecodeResult) (err : string) (evs : list effect),
    (forall s : state,
        trim (input s) = t ->
        click atob loadNada loadZstd s
        = mkWorld (mkState (input s) res err false)
                  (prologue s ++ evs ++ [SetLoading false]))
    /\ ((exists e,
            atob t = inl e /\ res = None /\ err = decodingError e
            /\ evs = [SetError (decodingError e)])
        \/ (exists binaryString,
               atob t = inr binaryString /\ map toUint8 binaryString = []
               /\ res = None /\ err = "Invalid base64 data"
               /\ evs = [SetError "Invalid base64 data"])
        \/ (exists binaryString firstByte dataWithoutMarker compressionType
                   decodedData errd devs,
               atob t = inr binaryString
               /\ map toUint8 binaryString = firstByte :: dataWithoutMarker
               /\ Forall (dispatchEffect firstByte dataWithoutMarker) devs
               /\ (forall msg,
                      errd = Some msg ->
                      dispatchEffect firstByte dataWithoutMarker
                                     (SetError msg))
               /\ res = Some (mkDecodeResult compressionType
                                             (bytesToHex decodedData)
                                             (List.length t)
                                             (List.length decodedData))
               /\ err = match errd with Some msg => msg | None => "" end
               /\ evs = (devs ++ [SetResult res])%list)).
Proof.
  intro Hne. destruct (atob t) as [e|binaryString] eqn:Ha.
  - exists None, (decodingError e), [SetError (decodingError e)]. split.
    + intros s <-. now rewrite (click_atob_throws atob loadNada loadZstd s e).
    + left. now exists e.
  - destruct (map toUint8 binaryString) as [|firstByte rest] eqn:Hb.
    + exists None, "Invalid base64 data", [SetError "Invalid base64 data"].
      split.
      * intros s <-.
        now rewrite (click_no_bytes atob loadNada loadZstd s binaryString).
      * right. left. now exists binaryString.
    + destruct (dispatch_uniform loadNada loadZstd firstByte rest)
        as (ct & data & errd & devs & Hd & Hdevs & Herr & _).
      exists (Some (mkDecodeResult ct (bytesToHex data) (List.length t)
                                   (List.length data))),
        (match errd with Some msg => msg | None => "" end),
        (devs ++ [SetResult
                    (Some (mkDecodeResult ct (bytesToHex data) (List.length t)
                                          (List.length data)))])%list.
      split.
      * intros s <-.
        rewrite (click_dispatched atob loadNada loadZstd s binaryString
                   firstByte rest ct data _ Hne Ha Hb (Hd _)).
        simpl. rewrite <- !app_assoc. reflexivity.
      * right. right.
        exists binaryString, firstByte, rest, ct, data, errd, devs.
        repeat (split; [first [assumption | reflexivity]|]). reflexivity.
Qed.

(** ** Further properties of the handler *)

(** X1.  When the decoded bytes start with 0x01 (resp. 0x02) and the NADA
    (resp. ZSTD) codec is imported and returns bytes, the result shows the
    bytes the codec returned, [decodedSize] is their number, no error is
    reported, and the codec was called once, on the bytes after the
    marker. *)
Theorem codec_output_is_shown :
  forall (atob : jsstring -> exn + jsstring) (loadNada loadZstd : exn + codec)
         (s : state) (binaryString : jsstring) (marker : byte)
         (payload : bytes) (decompress : codec) (decodedData : bytes),
    trim (input s) <> [] ->
    atob (trim (input s)) = inr binaryString ->
    map toUint8 binaryString = marker :: payload ->
    marker = x01 /\ loadNada = inr decompress
    \/ marker = x02 /\ loadZstd = inr decompress ->
    decompress payload = inr decodedData ->
    let w := click atob loadNada loadZstd s in
    let r := mkDecodeResult
               (if Byte.eqb marker x01 then "NADA (0x01)" else "ZSTD (0x02)")
               (bytesToHex decodedData)
               (List.length (trim (input s)))
               (List.length decodedData) in
    result (ui w) = Some r
    /\ error (ui w) = ""
    /\ loading (ui w) = false
    /\ log w
       = [SetLoading true; SetError ""; SetResult None;
          CallAtob (trim (input s));
          (if Byte.eqb marker x01 then ImportNada else ImportZstd);
          (if Byte.eqb marker x01 then CallNadaDecode payload
           else CallZstdDecompress payload);
          SetResult (Some r); SetLoading false].
Proof.
  intros atob loadNada loadZstd s binaryString marker payload decompress
         decodedData Hne Ha Hb [[-> ->] | [-> ->]] Hdec w r; subst w r.
  - assert (Hd : dispatch (inr decompress) loadZstd x01 payload
                   (mkWorld (mkState (input s) None "" true) (prologue s))
                 = (Normal ("NADA (0x01)", decodedData),
                    mkWorld (mkState (input s) None "" true)
                            (prologue s
                               ++ [ImportNada; CallNadaDecode payload]))).
    { unfold dispatch. run_handler. rewrite Hdec. reflexivity. }
    rewrite (click_dispatched atob _ loadZstd s binaryString x01 payload
               _ _ _ Hne Ha Hb Hd).
    repeat split.
  - assert (Hd : dispatch loadNada (inr decompress) x02 payload
                   (mkWorld (mkState (input s) None "" true) (prologue s))
                 = (Normal ("ZSTD (0x02)", decodedData),
                    mkWorld (mkState (input s) None "" true)
                            (prologue s
                               ++ [ImportZstd; CallZstdDecompress payload]))).
    { unfold dispatch. run_handler. rewrite Hdec. reflexivity. }
    rewrite (click_dispatched atob loadNada _ s binaryString x02 payload
               _ _ _ Hne Ha Hb Hd).
    repeat split.
Qed.

Lemma codec_output_is_shown_witness :
  let s := typed "AUFC" in
  let w := click Html.atob doubling unavailable s in
  Html.atob (trim (input s)) = inr [1; 65; 66]%N
  /\ result (ui w) = Some (mkDecodeResult "NADA (0x01)" "41 42 41 42" 4 4)
  /\ error (ui w) = ""
  /\ loading (ui w) = false.
Proof.
  split; [reflexivity|].
  assert (Hne : trim (input (typed "AUFC")) <> [])
    by (vm_compute; discriminate).
  destruct (codec_output_is_shown Html.atob doubling unavailable
              (typed "AUFC") [1; 65; 66]%N x01 [x41; x42]
              (fun data : bytes => inr (data ++ data)%list)
              [x41; x42; x41; x42]
              Hne eq_refl eq_refl (or_introl (conj eq_refl eq_refl)) eq_refl)
    as (Hr & He & Hl & _).
  split; [exact Hr|]. split; [exact He | exact Hl].
Defined.

(** X2.  A click past the guard calls [setLoading] exactly twice, with
    [true] as its first effect and with [false] as its last, whatever
    [atob] and the codecs do: the component never rests with
    [loading = true]. *)
Theorem click_always_resets_loading :
  forall (atob : jsstring -> exn + jsstring) (loadNada loadZstd : exn + codec)
         (s : state),
    trim (input s) <> [] ->
    let w := click atob loadNada loadZstd s in
    loading (ui w) = false
    /\ exists middle : list effect,
        log w = (SetLoading true :: middle ++ [SetLoading false])%list
        /\ Forall (fun e => forall b, e <> SetLoading b) middle.
Proof.
  intros atob loadNada loadZstd s Hne w; subst w.
  destruct (click_outcome atob loadNada loadZstd (trim (input s)) Hne)
    as (res & err & evs & Heq & Hcases).
  rewrite (Heq s eq_refl). split; [reflexivity|].
  exists ([SetError ""; SetResult None; CallAtob (trim (input s))] ++ evs)%list.
  split; [reflexivity|].
  apply Forall_app. split; [repeat constructor; discriminate|].
  destruct Hcases as [(e & _ & _ & _ & ->)
                     | [(b & _ & _ & _ & _ & ->)
                       | (b & fb & d & ct & data & errd & devs
                          & _ & _ & Hdevs & _ & _ & _ & ->)]].
  - repeat constructor; discriminate.
  - repeat constructor; discriminate.
  - apply Forall_app. split; [|repeat constructor; discriminate].
    eapply Forall_impl; [|exact Hdevs].
    intros e He b0 ->. exact He.
Qed.

Lemma click_always_resets_loading_witness :
  let s := mkState (str "A!") None "" true in
  let w := click Html.atob unavailable unavailable s in
  loading s = true /\ loading (ui w) = false.
Proof.
  split; [reflexivity|].
  assert (Hne : trim (input (mkState (str "A!") None "" true)) <> [])
    by (vm_compute; discriminate).
  exact (proj1 (click_always_resets_loading Html.atob unavailable unavailable
                  (mkState (str "A!") None "" true) Hne)).
Defined.

(** X3.  No click ends silently: when the component shows no error after a
    click, it shows a result, and that result was set by this click. *)
Theorem no_error_means_fresh_result :
  forall (atob : jsstring -> exn + jsstring) (loadNada loadZstd : exn + codec)
         (s : state),
    let w := click atob loadNada loadZstd s in
    error (ui w) = "" ->
    exists r : DecodeResult,
      result (ui w) = Some r /\ In (SetResult (Some r)) (log w).
Proof.
  intros atob loadNada loadZstd s w; subst w.
  destruct (trim (input s)) as [|c t] eqn:Ht.
  - rewrite (click_blank atob loadNada loadZstd s Ht). simpl. discriminate.
  - assert (Hne : trim (input s) <> []) by (rewrite Ht; discriminate).
    destruct (click_outcome atob loadNada loadZstd (trim (input s)) Hne)
      as (res & err & evs & Heq & Hcases).
    rewrite (Heq s eq_refl). simpl.
    destruct Hcases as [(e & _ & _ & -> & _)
                       | [(b & _ & _ & _ & -> & _)
                         | (b & fb & d & ct & data & errd & devs
                            & _ & _ & _ & _ & -> & _ & ->)]].
    + intro H. now apply decodingError_not in H.
    + discriminate.
    + intros _. eexists. split; [reflexivity|].
      right. right. right. right.
      apply in_or_app. left. apply in_or_app. right. now left.
Qed.

Lemma no_error_means_fresh_result_witness :
  let s := typed " AEhlbGxvCg== " in
  let w := click Html.atob unavailable unavailable s in
  error s <> "" /\ error (ui w) = ""
  /\ exists r : DecodeResult,
      result (ui w) = Some r /\ In (SetResult (Some r)) (log w).
Proof.
  split; [discriminate|]. split; [reflexivity|].
  exact (no_error_means_fresh_result Html.atob unavailable unavailable
           (typed " AEhlbGxvCg== ") eq_refl).
Defined.

(** X4.  After a click past the guard the result is [null] exactly when
    [atob] threw or returned no byte: as soon as there is a marker byte a
    result is set, whatever the marker is and whatever the codecs do. *)
Theorem result_is_null_only_after_fatal :
  forall (atob : jsstring -> exn + jsstring) (loadNada loadZstd : exn + codec)
         (s : state),
    trim (input s) <> [] ->
    let w := click atob loadNada loadZstd s in
    result (ui w) = None
    <-> (exists e : exn, atob (trim (input s)) = inl e)
        \/ atob (trim (input s)) = inr [].
Proof.
  intros atob loadNada loadZstd s Hne w; subst w.
  destruct (click_outcome atob loadNada loadZstd (trim (input s)) Hne)
    as (res & err & evs & Heq & Hcases).
  rewrite (Heq s eq_refl). simpl.
  destruct Hcases as [(e & Ha & -> & _)
                     | [(b & Ha & Hb & -> & _)
                       | (b & fb & d & ct & data & errd & devs
                          & Ha & Hb & _ & _ & -> & _)]].
  - split; [|reflexivity]. intros _. left. now exists e.
  - split; [|reflexivity]. intros _. right.
    destruct b; [exact Ha | discriminate].
  - split; [discriminate|].
    intros [[e He] | He]; rewrite Ha in He; [discriminate|].
    injection He as ->. discriminate.
Qed.

Lemma result_is_null_only_after_fatal_witness :
  let s := typed "AkFC" in
  let w := click Html.atob unavailable unavailable s in
  Html.atob (trim (input s)) = inr [2; 65; 66]%N
  /\ result (ui w) <> None.
Proof.
  split; [reflexivity|].
  assert (Hne : trim (input (typed "AkFC")) <> [])
    by (vm_compute; discriminate).
  intro H.
  apply (proj1 (result_is_null_only_after_fatal Html.atob unavailable
                  unavailable (typed "AkFC") Hne)) in H.
  destruct H as [[e He] | He]; vm_compute in He; discriminate.
Defined.

(** X5.  What a click past the guard leaves in [result], [error] and
    [loading], and what it does, depends on the trimmed text only: not on
    the white space around it, and not on the result, the error or the
    loading flag the component had before. *)
Theorem click_depends_on_trimmed_text :
  forall (atob : jsstring -> exn + jsstring) (loadNada loadZstd : exn + codec)
         (s s' : state),
    trim (input s) <> [] ->
    trim (input s) = trim (input s') ->
    let w := click atob loadNada loadZstd s in
    let w' := click atob loadNada loadZstd s' in
    result (ui w) = result (ui w')
    /\ error (ui w) = error (ui w')
    /\ loading (ui w) = loading (ui w')
    /\ log w = log w'.
Proof.
  intros atob loadNada loadZstd s s' Hne Heqt w w'; subst w w'.
  destruct (click_outcome atob loadNada loadZstd (trim (input s)) Hne)
    as (res & err & evs & Heq & _).
  rewrite (Heq s eq_refl), (Heq s' (eq_sym Heqt)). simpl.
  unfold prologue. rewrite Heqt. repeat split.
Qed.

Lemma click_depends_on_trimmed_text_witness :
  let s := typed " AEhlbGxvCg== " in
  let s' := mkState (str "AEhlbGxvCg==") None "" true in
  input s <> input s' /\ result s <> result s'
  /\ result (ui (click Html.atob unavailable unavailable s))
     = result (ui (click Html.atob unavailable unavailable s'))
  /\ error (ui (click Html.atob unavailable unavailable s))
     = error (ui (click Html.atob unavailable unavailable s')).
Proof.
  split; [discriminate|]. split; [discriminate|].
  assert (Hne : trim (input (typed " AEhlbGxvCg== ")) <> [])
    by (vm_compute; discriminate).
  destruct (click_depends_on_trimmed_text Html.atob unavailable unavailable
              (typed " AEhlbGxvCg== ")
              (mkState (str "AEhlbGxvCg==") None "" true) Hne eq_refl)
    as (Hr & He & _).
  split; [exact Hr | exact He].
Defined.

(** X6.  A codec is imported only for its own marker and is called only on
    the decoded bytes after that marker: NADA for a first byte 0x01, ZSTD
    for a first byte 0x02, and no codec at all for any other input. *)
Theorem codecs_see_only_the_payload :
  forall (atob : jsstring -> exn + jsstring) (loadNada loadZstd : exn + codec)
         (s : state),
    let w := click atob loadNada loadZstd s in
    (In ImportNada (log w) ->
     exists binaryString payload,
       atob (trim (input s)) = inr binaryString
       /\ map toUint8 binaryString = x01 :: payload)
    /\ (forall data,
           In (CallNadaDecode data) (log w) ->
           exists binaryString,
             atob (trim (input s)) = inr binaryString
             /\ map toUint8 binaryString = x01 :: data)
    /\ (In ImportZstd (log w) ->
        exists binaryString payload,
          atob (trim (input s)) = inr binaryString
          /\ map toUint8 binaryString = x02 :: payload)
    /\ (forall data,
           In (CallZstdDecompress data) (log w) ->
           exists binaryString,
             atob (trim (input s)) = inr binaryString
             /\ map toUint8 binaryString = x02 :: data).
Proof.
  intros atob loadNada loadZstd s w; subst w.
  assert (Hkey : forall e,
             In e (log (click atob loadNada loadZstd s)) ->
             (forall b, e <> SetLoading b) -> (forall m, e <> SetError m) ->
             (forall r, e <> SetResult r) -> (forall t, e <> CallAtob t) ->
             exists binaryString firstByte payload,
               atob (trim (input s)) = inr binaryString
               /\ map toUint8 binaryString = firstByte :: payload
               /\ dispatchEffect firstByte payload e).
  { intros e Hin Hl Hm Hr Ht.
    destruct (trim (input s)) as [|c t] eqn:Htrim.
    - rewrite (click_blank atob loadNada loadZstd s Htrim) in Hin.
      destruct Hin as [<- | []]. now elim (Hm "Please enter a base64 string").
    - assert (Hne : trim (input s) <> []) by (rewrite Htrim; discriminate).
      destruct (click_outcome atob loadNada loadZstd (trim (input s)) Hne)
        as (res & err & evs & Heq & Hcases).
      rewrite (Heq s eq_refl) in Hin. rewrite <- Htrim. simpl in Hin.
      destruct Hin as [<- | [<- | [<- | [<- | Hin]]]];
        [now elim (Hl true) | now elim (Hm "") | now elim (Hr None)
        | now elim (Ht (trim (input s))) |].
      apply in_app_or in Hin as [Hin | [<- | []]]; [|now elim (Hl false)].
      destruct Hcases as [(e0 & _ & _ & _ & ->)
                         | [(b & _ & _ & _ & _ & ->)
                           | (b & fb & d & ct & data & errd & devs
                              & Ha & Hb & Hdevs & _ & _ & _ & ->)]].
      + destruct Hin as [<- | []]. now elim (Hm (decodingError e0)).
      + destruct Hin as [<- | []]. now elim (Hm "Invalid base64 data").
      + apply in_app_or in Hin as [Hin | [<- | []]]; [|now elim (Hr res)].
        exists b, fb, d. split; [exact Ha|]. split; [exact Hb|].
        rewrite Forall_forall in Hdevs. now apply Hdevs. }
  split; [|split; [|split]].
  - intro H. destruct (Hkey _ H) as (b & fb & d & Ha & Hb & He);
      try discriminate.
    simpl in He. subst fb. now exists b, d.
  - intros data H. destruct (Hkey _ H) as (b & fb & d & Ha & Hb & He);
      try discriminate.
    simpl in He. destruct He as [-> ->]. now exists b.
  - intro H. destruct (Hkey _ H) as (b & fb & d & Ha & Hb & He);
      try discriminate.
    simpl in He. subst fb. now exists b, d.
  - intros data H. destruct (Hkey _ H) as (b & fb & d & Ha & Hb & He);
      try discriminate.
    simpl in He. destruct He as [-> ->]. now exists b.
Qed.

Lemma codecs_see_only_the_payload_witness :
  let s := typed "AUFC" in
  let w := click Html.atob doubling doubling s in
  In (CallNadaDecode [x41; x42]) (log w)
  /\ exists binaryString,
      Html.atob (trim (input s)) = inr binaryString
      /\ map toUint8 binaryString = [x01; x41; x42].
Proof.
  assert (H : In (CallNadaDecode [x41; x42])
                 (log (click Html.atob doubling doubling (typed "AUFC"))))
    by (vm_compute; tauto).
  split; [exact H|].
  exact (proj1 (proj2 (codecs_see_only_the_payload Html.atob doubling doubling
                         (typed "AUFC")))
               [x41; x42] H).
Defined.

(** ** Further properties of the hex formatter *)

(** X7.  The dump of two byte sequences put end to end is the two dumps
    with one space between them (when neither is empty). *)
Theorem bytesToHex_app :
  forall a b : bytes,
    a <> [] -> b <> [] ->
    bytesToHex (a ++ b)%list = bytesToHex a ++ " " ++ bytesToHex b.
Proof.
  intros a b Ha Hb. destruct a as [|x a]; [congruence|]. clear Ha.
  destruct b as [|y b]; [congruence|]. clear Hb.
  revert x. induction a as [|x' a IH]; intro x.
  - simpl app. rewrite bytesToHex_cons, bytesToHex_one. reflexivity.
  - change ((x :: x' :: a) ++ y :: b)%list
      with (x :: x' :: (a ++ y :: b))%list.
    rewrite !bytesToHex_cons.
    change (x' :: (a ++ y :: b))%list with ((x' :: a) ++ y :: b)%list.
    rewrite IH. reflexivity.
Qed.

Lemma bytesToHex_app_witness :
  bytesToHex ([x00; xff] ++ [x0a])%list = "00 FF" ++ " " ++ "0A".
Proof.
  exact (bytesToHex_app [x00; xff] [x0a]
           ltac:(discriminate) ltac:(discriminate)).
Defined.

(** X8.  Two byte sequences with the same dump are the same sequence; in
    particular only the empty sequence has the empty dump. *)
Theorem same_dump_same_bytes :
  forall a b : bytes,
    (bytesToHex a = bytesToHex b -> a = b)
    /\ (bytesToHex a = "" -> a = []).
Proof.
  intros a b. split.
  - apply bytesToHex_inj.
  - intro H. apply bytesToHex_inj. rewrite H. reflexivity.
Qed.

Lemma same_dump_same_bytes_witness :
  bytesToHex [x48; x69] = "48 69" /\ [x48; x69] = [x48; x69].
Proof.
  split; [reflexivity|].
  exact (proj1 (same_dump_same_bytes [x48; x69] [x48; x69]) eq_refl).
Defined.

(** ** The rendered component *)

Lemma enabled_button (s : state) :
  buttonDisabled (render s) = false ->
  loading s = false /\ trim (input s) <> [].
Proof.
  simpl. intro H. apply orb_false_iff in H as [Hl Hf].
  split; [exact Hl|]. intro Ht. rewrite Ht in Hf. discriminate.
Qed.

(** X9.  The button is disabled on a blank input, so a click on the
    enabled button never takes the guard of line 41: it never sets the
    error "Please enter a base64 string". *)
Theorem enabled_button_never_hits_guard :
  forall (atob : jsstring -> exn + jsstring) (loadNada loadZstd : exn + codec)
         (s : state),
    buttonDisabled (render s) = false ->
    let w := click atob loadNada loadZstd s in
    ~ In (SetError "Please enter a base64 string") (log w)
    /\ error (ui w) <> "Please enter a base64 string".
Proof.
  intros atob loadNada loadZstd s Hen w; subst w.
  destruct (enabled_button s Hen) as [_ Hne].
  destruct (click_outcome atob loadNada loadZstd (trim (input s)) Hne)
    as (res & err & evs & Heq & Hcases).
  rewrite (Heq s eq_refl). simpl.
  destruct Hcases as [(e & _ & _ & -> & ->)
                     | [(b & _ & _ & _ & -> & ->)
                       | (b & fb & d & ct & data & errd & devs
                          & _ & _ & Hdevs & Herr & _ & -> & ->)]].
  - split; [|apply decodingError_not].
    simpl. intros [H|[H|[H|[H|[H|[H|[]]]]]]]; discriminate.
  - split; [|discriminate].
    simpl. intros [H|[H|[H|[H|[H|[H|[]]]]]]]; discriminate.
  - split.
    + intros [H|[H|[H|[H|H]]]]; try discriminate.
      apply in_app_or in H as [H|[H|[]]]; [|discriminate].
      apply in_app_or in H as [H|[H|[]]]; [|discriminate].
      rewrite Forall_forall in Hdevs. apply Hdevs in H.
      now apply dispatchEffect_error in H.
    + destruct errd as [msg|]; [|discriminate].
      apply (dispatchEffect_error fb d msg). now apply Herr.
Qed.

Lemma enabled_button_never_hits_guard_witness :
  let s := typed "A!" in
  let w := click Html.atob unavailable unavailable s in
  buttonDisabled (render s) = false
  /\ error (ui w) <> "Please enter a base64 string".
Proof.
  split; [reflexivity|].
  exact (proj2 (enabled_button_never_hits_guard Html.atob unavailable
                  unavailable (typed "A!") eq_refl)).
Defined.

(** X10.  After a click on the enabled button the input field is as it
    was, the button is enabled again and reads "Decode", and the page shows
    the error alert or the result card (or both). *)
Theorem button_is_enabled_again :
  forall (atob : jsstring -> exn + jsstring) (loadNada loadZstd : exn + codec)
         (s : state),
    buttonDisabled (render s) = false ->
    let v := render (ui (click atob loadNada loadZstd s)) in
    inputValue v = input s
    /\ buttonDisabled v = false
    /\ buttonLabel v = "Decode"
    /\ (alert v <> None \/ resultCard v <> None).
Proof.
  intros atob loadNada loadZstd s Hen v; subst v.
  destruct (enabled_button s Hen) as [_ Hne].
  destruct (click_outcome atob loadNada loadZstd (trim (input s)) Hne)
    as (res & err & evs & Heq & Hcases).
  rewrite (Heq s eq_refl). unfold render. simpl.
  split; [reflexivity|]. split; [now rewrite isFalsy_false|].
  split; [reflexivity|].
  destruct Hcases as [(e & _ & _ & -> & _)
                     | [(b & _ & _ & _ & -> & _)
                       | (b & fb & d & ct & data & errd & devs
                          & _ & _ & _ & _ & -> & _)]].
  - left. destruct (String.eqb_spec (decodingError e) "") as [H|H];
      [now apply decodingError_not in H | discriminate].
  - left. discriminate.
  - right. discriminate.
Qed.

Lemma button_is_enabled_again_witness :
  let s := typed "AkFC" in
  let v := render (ui (click Html.atob unavailable unavailable s)) in
  buttonDisabled (render s) = false
  /\ buttonDisabled v = false
  /\ alert v <> None /\ resultCard v <> None.
Proof.
  split; [reflexivity|].
  destruct (button_is_enabled_again Html.atob unavailable unavailable
              (typed "AkFC") eq_refl) as (_ & Hd & _ & _).
  split; [exact Hd|]. split; discriminate.
Defined.

(** X11.  With the [atob] of the HTML Standard the branch of lines 58-61
    is never taken: no click, on any input and with any codecs, sets the
    error "Invalid base64 data". *)
Theorem invalid_base64_data_is_never_reported :
  forall (loadNada loadZstd : exn + codec) (s : state),
    let w := click Html.atob loadNada loadZstd s in
    ~ In (SetError "Invalid base64 data") (log w)
    /\ error (ui w) <> "Invalid base64 data".
Proof.
  intros loadNada loadZstd s w; subst w.
  destruct (trim (input s)) as [|c t] eqn:Ht.
  - rewrite (click_blank Html.atob loadNada loadZstd s Ht). simpl.
    split; [intros [H|[]]|]; discriminate.
  - assert (Hne : trim (input s) <> []) by (rewrite Ht; discriminate).
    destruct (click_outcome Html.atob loadNada loadZstd (trim (input s)) Hne)
      as (res & err & evs & Heq & Hcases).
    rewrite (Heq s eq_refl). simpl.
    destruct Hcases as [(e & _ & _ & -> & ->)
                       | [(b & Ha & Hb & _)
                         | (b & fb & d & ct & data & errd & devs
                            & _ & _ & Hdevs & Herr & _ & -> & ->)]].
    + split; [|apply decodingError_not].
      simpl. intros [H|[H|[H|[H|[H|[H|[]]]]]]]; discriminate.
    + destruct b; [|discriminate].
      now elim (atob_of_text_is_not_empty (input s) Hne).
    + split.
      * intros [H|[H|[H|[H|H]]]]; try discriminate.
        apply in_app_or in H as [H|[H|[]]]; [|discriminate].
        apply in_app_or in H as [H|[H|[]]]; [|discriminate].
        rewrite Forall_forall in Hdevs. apply Hdevs in H.
        now apply dispatchEffect_error in H.
      * destruct errd as [msg|]; [|discriminate].
        apply (dispatchEffect_error fb d msg). now apply Herr.
Qed.

Lemma invalid_base64_data_is_never_reported_witness :
  error (ui (click Html.atob unavailable unavailable (typed "====")))
  <> "Invalid base64 data".
Proof.
  exact (proj2 (invalid_base64_data_is_never_reported unavailable unavailable
                  (typed "===="))).
Defined.

(** X12.  In every state the component can rest in (after any sequence of
    typing and of clicks on the enabled button) [loading] is false, so the
    button reads "Decode"; the error is never "Please enter a base64
    string"; and a result on the screen has a [hexData] that is the dump of
    [decodedSize] bytes, so its length is 3 * [decodedSize] - 1. *)
Theorem reachable_invariant :
  forall (atob : jsstring -> exn + jsstring) (s : state),
    reachable atob s ->
    loading s = false
    /\ buttonLabel (render s) = "Decode"
    /\ error s <> "Please enter a base64 string"
    /\ (forall r : DecodeResult,
           result s = Some r ->
           (exists payload : bytes,
               hexData r = bytesToHex payload
               /\ decodedSize r = List.length payload)
           /\ String.length (hexData r) = 3 * decodedSize r - 1).
Proof.
  intros atob s H.
  assert (Hinv : loading s = false
                 /\ error s <> "Please enter a base64 string"
                 /\ (forall r : DecodeResult,
                        result s = Some r ->
                        exists payload : bytes,
                          hexData r = bytesToHex payload
                          /\ decodedSize r = List.length payload)).
  { induction H as [|value s H IH|loadNada loadZstd s H IH Hen].
    - split; [reflexivity|]. split; discriminate.
    - exact IH.
    - destruct (enabled_button s Hen) as [_ Hne].
      destruct (click_outcome atob loadNada loadZstd (trim (input s)) Hne)
        as (res & err & evs & Heq & Hcases).
      rewrite (Heq s eq_refl). simpl. split; [reflexivity|].
      destruct Hcases as [(e & _ & -> & -> & _)
                         | [(b & _ & _ & -> & -> & _)
                           | (b & fb & d & ct & data & errd & devs
                              & _ & _ & _ & Herr & -> & -> & _)]].
      + split; [apply decodingError_not | discriminate].
      + split; discriminate.
      + split.
        * destruct errd as [msg|]; [|discriminate].
          apply (dispatchEffect_error fb d msg). now apply Herr.
        * intros r Hr. injection Hr as <-. exists data. split; reflexivity. }
  destruct Hinv as (Hl & He & Hr).
  split; [exact Hl|]. split; [simpl; now rewrite Hl|]. split; [exact He|].
  intros r Hres. destruct (Hr r Hres) as (payload & Hh & Hd).
  split; [now exists payload|].
  rewrite Hh, Hd. apply bytesToHex_length.
Qed.

Lemma reachable_invariant_witness :
  let s := ui (click Html.atob unavailable unavailable
                     (onChange (str "AkFC")
                        (ui (click Html.atob unavailable unavailable
                                   (onChange (str "A!") initial))))) in
  reachable Html.atob s
  /\ result s = Some (mkDecodeResult "ZSTD (0x02)" "41 42" 4 2)
  /\ loading s = false
  /\ error s <> "Please enter a base64 string".
Proof.
  assert (H : reachable Html.atob
                (ui (click Html.atob unavailable unavailable
                           (onChange (str "AkFC")
                              (ui (click Html.atob unavailable unavailable
                                         (onChange (str "A!") initial))))))).
  { apply reach_click; [|reflexivity].
    apply reach_change. apply reach_click; [|reflexivity].
    apply reach_change. apply reach_initial. }
  split; [exact H|]. split; [reflexivity|].
  destruct (reachable_invariant Html.atob _ H) as (Hl & _ & He & _).
  split; [exact Hl | exact He].
Defined.

(** X13.  Clicking again changes nothing: with the same [atob] and codecs,
    a second click right after a first one leaves the component in the
    state the first one left, and does what the first one did. *)
Theorem click_is_idempotent :
  forall (atob : jsstring -> exn + jsstring) (loadNada loadZstd : exn + codec)
         (s : state),
    let w := click atob loadNada loadZstd s in
    let w' := click atob loadNada loadZstd (ui w) in
    ui w' = ui w /\ log w' = log w.
Proof.
  intros atob loadNada loadZstd s w w'; subst w w'.
  destruct (trim (input s)) as [|c t] eqn:Ht.
  - rewrite (click_blank atob loadNada loadZstd s Ht).
    simpl ui.
    rewrite (click_blank atob loadNada loadZstd
               (mkState (input s) (result s) "Please enter a base64 string"
                        (loading s)) Ht).
    split; reflexivity.
  - assert (Hne : trim (input s) <> []) by (rewrite Ht; discriminate).
    destruct (click_outcome atob loadNada loadZstd (trim (input s)) Hne)
      as (res & err & evs & Heq & _).
    rewrite (Heq s eq_refl). simpl ui.
    rewrite (Heq (mkState (input s) res err false) eq_refl).
    split; reflexivity.
Qed.

(** ** No bytes at all *)

(** C4 does not hold as it stands: a text of two spaces decodes to no byte
    at all, but the handler stops at the guard of line 41, with another
    error than the "Invalid base64 data" of line 59, and the result of the
    earlier click stays on the screen. *)
Lemma blank_input_decodes_to_no_bytes :
  let s := typed "  " in
  let w := click Html.atob unavailable unavailable s in
  Html.atob (input s) = inr []
  /\ Html.atob (trim (input s)) = inr []
  /\ error (ui w) = "Please enter a base64 string"
  /\ error (ui w) <> "Invalid base64 data"
  /\ result (ui w) = Some stale
  /\ result (ui w) <> None.
Proof.
  repeat split; try reflexivity; discriminate.
Qed.

(** C4, amended.  A text decodes to no byte at all only when it is blank,
    whatever the engine's [atob]; the handler then stops at the guard of
    line 41: it sets the error "Please enter a base64 string" and does
    nothing else, so that [atob] is not called, no marker is dispatched and
    no result is set (the result of an earlier click stays).  The branch of
    lines 58-61 and its "Invalid base64 data" are never reached. *)
Theorem no_bytes_means_blank_input :
  forall (atob : jsstring -> exn + jsstring) (loadNada loadZstd : exn + codec)
         (s : state),
    Html.conforms atob ->
    atob (input s) = inr [] \/ atob (trim (input s)) = inr [] ->
    let w := click atob loadNada loadZstd s in
    trim (input s) = []
    /\ error (ui w) = "Please enter a base64 string"
    /\ result (ui w) = result s
    /\ loading (ui w) = loading s
    /\ log w = [SetError "Please enter a base64 string"]
    /\ (forall s' : state,
           ~ In (SetError "Invalid base64 data")
                (log (click atob loadNada loadZstd s'))).
Proof.
  intros atob loadNada loadZstd s Hconf H w; subst w.
  assert (Hempty : forall data, atob data = inr [] ->
                                forallb Html.isAsciiWhitespace data = true).
  { intros data Ha. apply forgiving_empty.
    pose proof (Hconf data) as Hc.
    destruct (Html.forgivingBase64Decode data) as [b|].
    - rewrite Ha in Hc. now injection Hc as <-.
    - destruct Hc as [e He]. rewrite Ha in He. discriminate. }
  assert (Hnonblank : forall text, trim text <> [] ->
                                   atob (trim text) <> inr []).
  { intros text Hne Ha. apply Hempty in Ha.
    destruct (trim text) as [|c t] eqn:Ht; [congruence|].
    pose proof (trim_head _ _ _ Ht) as Hc.
    simpl in Ha. apply andb_true_iff in Ha as [Ha _].
    apply isAsciiWhitespace_isWhiteSpace in Ha. congruence. }
  assert (Ht : trim (input s) = []).
  { destruct H as [H|H].
    - apply Hempty in H. apply trim_nil_iff.
      apply forallb_forall. intros c Hin.
      apply isAsciiWhitespace_isWhiteSpace.
      now apply (proj1 (forallb_forall _ _) H).
    - destruct (trim (input s)) as [|c t] eqn:Ht; [reflexivity|].
      exfalso. apply (Hnonblank (input s)); rewrite Ht; [discriminate|].
      exact H. }
  split; [exact Ht|].
  rewrite (click_blank atob loadNada loadZstd s Ht).
  repeat (split; [reflexivity|]).
  intros s'. destruct (trim (input s')) as [|c t] eqn:Ht'.
  - rewrite (click_blank atob loadNada loadZstd s' Ht'). simpl.
    intros [H'|[]]. discriminate.
  - assert (Hne : trim (input s') <> []) by (rewrite Ht'; discriminate).
    destruct (click_outcome atob loadNada loadZstd (trim (input s')) Hne)
      as (res & err & evs & Heq & Hcases).
    rewrite (Heq s' eq_refl). simpl.
    destruct Hcases as [(e & _ & _ & _ & ->)
                       | [(b & Ha & Hb & _)
                         | (b & fb & d & ct & data & errd & devs
                            & _ & _ & Hdevs & _ & _ & _ & ->)]].
    + simpl. intros [H'|[H'|[H'|[H'|[H'|[H'|[]]]]]]]; discriminate.
    + destruct b; [|discriminate].
      now elim (Hnonblank (input s') Hne).
    + intros [H'|[H'|[H'|[H'|H']]]]; try discriminate.
      apply in_app_or in H' as [H'|[H'|[]]]; [|discriminate].
      apply in_app_or in H' as [H'|[H'|[]]]; [|discriminate].
      rewrite Forall_forall in Hdevs. apply Hdevs in H'.
      now apply dispatchEffect_error in H'.
Qed.

Lemma no_bytes_means_blank_input_witness :
  let s := typed "  " in
  let w := click Html.atob unavailable unavailable s in
  Html.atob (input s) = inr []
  /\ error (ui w) = "Please enter a base64 string"
  /\ result (ui w) = Some stale
  /\ log w = [SetError "Please enter a base64 string"].
Proof.
  split; [reflexivity|].
  destruct (no_bytes_means_blank_input Html.atob unavailable unavailable
              (typed "  ") Html_atob_conforms (or_introl eq_refl))
    as (_ & He & Hr & _ & Hl & _).
  split; [exact He|]. split; [exact Hr | exact Hl].
Defined.
